(** * Synthetic antibacterial-activity data generator

    A shallow embedding of [generate_antibacterial_data] from
    [src/data_generator.py], and the properties its specification states
    about it.

    Numbers.  The Python code computes with binary64 floats.  This
    development idealises them as real numbers: [np.log10] is the real
    base-10 logarithm, [+], [*] and [/] are exact, and [round(x, 2)] is
    rounding to the nearest multiple of 1/100 with ties to the even
    multiple.  The float results differ from the real ones by rounding
    errors of relative size about 2^-53, which can change a stored
    hundredth or a tier only where a value is that close to a tie of the
    rounding or to a threshold.  Integer literals of the source ([base],
    [variance], the concentrations, the replicate index) stay integers,
    and the decimal literals of the resistance table are kept as the
    rationals they denote.

    Effects.  The function reads three ambient sources (numpy's global
    generator, Python's global [random] generator and the wall clock) and
    writes two sinks (a CSV file and standard output).  All five are
    fields of an explicit [world] that the embedding threads through the
    code; a [KeyError] from a dictionary subscript is an explicit result. *)

From Stdlib Require Import Reals Lra Lia ZArith QArith Qreals String DecimalString.
From stdpp Require Import gmap strings list.

Open Scope string_scope.
Open Scope Z_scope.

(** ** Numeric primitives *)

(** [np.log10] on positive arguments. *)
Definition log10 (x : R) : R := (ln x / ln 10)%R.

(** Python's two-argument [max(a, b)]: the first argument wins unless the
    second is strictly greater. *)
Definition py_max (a b : R) : R := if Rlt_dec a b then b else a.

(** Nearest integer, ties to even (numpy's [rint]). *)
Definition rint (x : R) : Z :=
  let f := Zfloor x in
  let d := (x - IZR f)%R in
  if Rlt_dec d (1 / 2) then f
  else if Rlt_dec (1 / 2) d then f + 1
  else if Z.even f then f else f + 1.

(** [round(x, 2)] of a numpy float: scale by 100, round to the nearest
    integer, divide by 100. *)
Definition round2 (x : R) : R := (IZR (rint (x * 100)) / 100)%R.

(** [range(n)]. *)
Definition range (n : nat) : list Z := Z.of_nat <$> seq 0 n.

(** [timedelta(days=d)] in microseconds; a [datetime] is a count of
    microseconds since the epoch. *)
Definition timedelta_days (d : Z) : Z := d * 86400000000.

(** ** The parameter tables (lines 10-65) *)

Definition plant_extracts : list string :=
  [ "Garlic (Allium sativum)";
    "Tea Tree (Melaleuca alternifolia)";
    "Oregano (Origanum vulgare)";
    "Thyme (Thymus vulgaris)";
    "Eucalyptus (Eucalyptus globulus)";
    "Neem (Azadirachta indica)";
    "Turmeric (Curcuma longa)";
    "Ginger (Zingiber officinale)";
    "Cinnamon (Cinnamomum verum)";
    "Clove (Syzygium aromaticum)" ].

Definition bacteria : list string :=
  [ "Escherichia coli";
    "Staphylococcus aureus";
    "Streptococcus pyogenes";
    "Pseudomonas aeruginosa";
    "Bacillus subtilis";
    "Salmonella typhimurium";
    "Enterococcus faecalis";
    "Klebsiella pneumoniae" ].

Definition concentrations : list Z := [10; 25; 50; 100; 200].

(** The inner dictionaries [{'base': b, 'variance': v}] all carry the same
    two keys, so they are a record. *)
Record profile : Type := { base : Z; variance : Z }.

Definition plant_effectiveness : gmap string profile :=
  list_to_map
  [ ("Garlic (Allium sativum)",           {| base := 15; variance := 5 |});
    ("Tea Tree (Melaleuca alternifolia)", {| base := 18; variance := 4 |});
    ("Oregano (Origanum vulgare)",        {| base := 16; variance := 3 |});
    ("Thyme (Thymus vulgaris)",           {| base := 17; variance := 4 |});
    ("Eucalyptus (Eucalyptus globulus)",  {| base := 12; variance := 6 |});
    ("Neem (Azadirachta indica)",         {| base := 14; variance := 5 |});
    ("Turmeric (Curcuma longa)",          {| base := 10; variance := 4 |});
    ("Ginger (Zingiber officinale)",      {| base := 8;  variance := 3 |});
    ("Cinnamon (Cinnamomum verum)",       {| base := 13; variance := 4 |});
    ("Clove (Syzygium aromaticum)",       {| base := 19; variance := 3 |}) ].

Definition bacterial_resistance : gmap string Q :=
  list_to_map
  [ ("Escherichia coli",       1.0%Q);
    ("Staphylococcus aureus",  0.8%Q);
    ("Streptococcus pyogenes", 1.2%Q);
    ("Pseudomonas aeruginosa", 0.6%Q);
    ("Bacillus subtilis",      1.4%Q);
    ("Salmonella typhimurium", 0.9%Q);
    ("Enterococcus faecalis",  0.7%Q);
    ("Klebsiella pneumoniae",  0.8%Q) ].

(** ** The measurement formula (lines 78-95)

    The three expressions of the loop body as functions of the values
    they depend on; [measure] below has them inline, as the source does. *)

(** Line 78: [np.log10(concentration / 10) * 3]. *)
Definition conc_effect (concentration : Z) : R :=
  (log10 (IZR concentration / 10) * 3)%R.

(** Lines 81-85: the value of [inhibition_zone] after the noise has been
    added and the result floored at zero. *)
Definition inhibition_zone (base_effectiveness : Z) (resistance_factor : Q)
    (concentration : Z) (noise : R) : R :=
  py_max 0 ((IZR base_effectiveness + conc_effect concentration)
            * Q2R resistance_factor + noise)%R.

(** Lines 88-95: the [if]/[elif] chain. *)
Definition activity_level (zone : R) : string :=
  if Rge_dec zone 20 then "High"
  else if Rge_dec zone 15 then "Moderate"
  else if Rge_dec zone 10 then "Low"
  else "None".

(** ** Records, the world and the effect monad *)

(** One dictionary appended to [data] (lines 97-105), which becomes one
    row of the data frame. *)
Record row : Type := {
  Plant_Extract : string;
  Bacteria : string;
  Concentration_mg_mL : Z;
  Replicate : Z;
  Inhibition_Zone_mm : R;
  Activity_Level : string;
  Test_Date : Z
}.

(** The four categorical fields of a row. *)
Definition cell : Type := string * string * Z * Z.

Definition row_cell (r : row) : cell :=
  (Plant_Extract r, Bacteria r, Concentration_mg_mL r, Replicate r).

Inductive exn : Type := KeyError (key : string).

Inductive result (A : Type) : Type :=
  | Ok (a : A)
  | Raise (e : exn).
Arguments Ok {A} a.
Arguments Raise {A} e.

(** The ambient sources the code reads: the states of numpy's global
    generator, of Python's global [random] generator and of the wall
    clock, with the three operations the code calls on them. *)
Class Ambient : Type := {
  np_state : Type;
  py_state : Type;
  clock_state : Type;
  np_random_normal : R -> R -> np_state -> R * np_state;
  random_randint : Z -> Z -> py_state -> Z * py_state;
  datetime_now : clock_state -> Z * clock_state
}.

Section Model.
Context `{Ambient}.

Record world : Type := {
  np_rng  : np_state;
  py_rng  : py_state;
  clock   : clock_state;
  files   : gmap string (list row);
  stdout  : list string
}.

Definition M (A : Type) : Type := world -> result (A * world).

Definition ret {A} (a : A) : M A := fun w => Ok (a, w).

Definition bind {A B} (m : M A) (k : A -> M B) : M B :=
  fun w => match m w with
           | Ok (a, w') => k a w'
           | Raise e => Raise e
           end.

Notation "'do' x <- m ; k" := (bind m (fun x => k))
  (at level 10, x name, m at level 100, k at level 200).

(** [d[key]] *)
Definition subscript {V} (d : gmap string V) (key : string) : M V :=
  fun w => match d !! key with
           | Some v => Ok (v, w)
           | None => Raise (KeyError key)
           end.

(** [np.random.normal(loc, scale)] *)
Definition normal (loc scale : R) : M R :=
  fun w => let (x, g) := np_random_normal loc scale (np_rng w) in
           Ok (x, {| np_rng := g; py_rng := py_rng w; clock := clock w;
                     files := files w; stdout := stdout w |}).

(** [random.randint(a, b)] *)
Definition randint (a b : Z) : M Z :=
  fun w => let (x, g) := random_randint a b (py_rng w) in
           Ok (x, {| np_rng := np_rng w; py_rng := g; clock := clock w;
                     files := files w; stdout := stdout w |}).

(** [datetime.now()] *)
Definition now : M Z :=
  fun w => let (t, c) := datetime_now (clock w) in
           Ok (t, {| np_rng := np_rng w; py_rng := py_rng w; clock := c;
                     files := files w; stdout := stdout w |}).

(** [df.to_csv(path, index=False)]: the file holds the table. *)
Definition to_csv (df : list row) (path : string) : M unit :=
  fun w => Ok (tt, {| np_rng := np_rng w; py_rng := py_rng w; clock := clock w;
                      files := <[path := df]> (files w); stdout := stdout w |}).

(** [print(line)] *)
Definition print (line : string) : M unit :=
  fun w => Ok (tt, {| np_rng := np_rng w; py_rng := py_rng w; clock := clock w;
                      files := files w; stdout := (stdout w ++ [line])%list |}).

(** A [for] statement whose body updates the local state [s]. *)
Fixpoint for_each {X S} (xs : list X) (body : X -> S -> M S) (s : S) : M S :=
  match xs with
  | [] => ret s
  | x :: xs' => do s' <- body x s; for_each xs' body s'
  end.

(** ** The generator *)

(** The body of the innermost loop (lines 72-105), statement by
    statement; [zone0], [zone1] and [zone2] are the successive values of
    the variable [inhibition_zone]. *)
Definition measure (plant bacterium : string) (concentration replicate : Z)
    (data : list row) : M (list row) :=
  do e <- subscript plant_effectiveness plant;
  let base_effectiveness := base e in
  do e' <- subscript plant_effectiveness plant;
  let variance := variance e' in
  do resistance_factor <- subscript bacterial_resistance bacterium;
  let conc_effect := (log10 (IZR concentration / 10) * 3)%R in
  let zone0 :=
    ((IZR base_effectiveness + conc_effect) * Q2R resistance_factor)%R in
  do noise <- normal 0 (IZR variance);
  let zone1 := (zone0 + noise)%R in
  let zone2 := py_max 0 zone1 in
  let activity_level :=
    if Rge_dec zone2 20 then "High"
    else if Rge_dec zone2 15 then "Moderate"
    else if Rge_dec zone2 10 then "Low"
    else "None" in
  let inhibition_zone_mm := round2 zone2 in
  do t <- now;
  do days <- randint 1 30;
  ret (data ++ [ {| Plant_Extract := plant;
                    Bacteria := bacterium;
                    Concentration_mg_mL := concentration;
                    Replicate := replicate + 1;
                    Inhibition_Zone_mm := inhibition_zone_mm;
                    Activity_Level := activity_level;
                    Test_Date := t - timedelta_days days |} ])%list.

(** The loop nest (lines 67-105) over arbitrary catalogs. *)
Definition generate_rows (plants bacts : list string) (concs : list Z)
    (data : list row) : M (list row) :=
  for_each plants (fun plant data =>
    for_each bacts (fun bacterium data =>
      for_each concs (fun concentration data =>
        for_each (range 3) (fun replicate data =>
          measure plant bacterium concentration replicate data)
        data) data) data) data.

Definition string_of_nat (n : nat) : string :=
  NilZero.string_of_uint (Nat.to_uint n).

(** Lines 107-111, after the loops. *)
Definition export (data : list row) : M (list row) :=
  let df := data in
  do _ <- to_csv df "antibacterial_data.csv";
  do _ <- print ("Generated " ++ string_of_nat (length df) ++ " data points");
  do _ <- print "Data saved to 'antibacterial_data.csv'";
  ret df.

(** The body of the function with the three catalog lists as
    parameters: [data = []], the loop nest, the export. *)
Definition generate_with (plants bacts : list string) (concs : list Z)
    : M (list row) :=
  do data <- generate_rows plants bacts concs [];
  export data.

(** The function itself binds the catalogs to its literals. *)
Definition generate_antibacterial_data : M (list row) :=
  generate_with plant_extracts bacteria concentrations.

(** *** Vocabulary of the statements about the loop *)

(** One iteration of the innermost loop: the values of [plant],
    [bacterium], [concentration] and [replicate]. *)
Definition measure_cell (cl : cell) : list row -> M (list row) :=
  let '(plant, bacterium, concentration, replicate) := cl in
  measure plant bacterium concentration replicate.

(** The dictionary that iteration [cl] appends, given the table entries
    it read and the three values it drew. *)
Definition record_of (cl : cell) (e : profile) (resistance_factor : Q)
    (noise : R) (t days : Z) : row :=
  let '(plant, bacterium, concentration, replicate) := cl in
  let zone :=
    inhibition_zone (base e) resistance_factor concentration noise in
  {| Plant_Extract := plant;
     Bacteria := bacterium;
     Concentration_mg_mL := concentration;
     Replicate := replicate + 1;
     Inhibition_Zone_mm := round2 zone;
     Activity_Level := activity_level zone;
     Test_Date := t - timedelta_days days |}.

(** [r] is a record that iteration [cl] can append: the table entries
    are those of its extract and bacterium and the noise is a draw of
    the generator with that extract's [variance] as scale. *)
Definition generated_by (cl : cell) (r : row) : Prop :=
  exists e resistance_factor g t days,
    plant_effectiveness !! cl.1.1.1 = Some e /\
    bacterial_resistance !! cl.1.1.2 = Some resistance_factor /\
    r = record_of cl e resistance_factor
          (np_random_normal 0 (IZR (variance e)) g).1 t days.

(** The world after one iteration: each source has advanced by one
    draw, the file system and the output are as before. *)
Definition after_measure (e : profile) (w : world) : world :=
  {| np_rng := (np_random_normal 0 (IZR (variance e)) (np_rng w)).2;
     py_rng := (random_randint 1 30 (py_rng w)).2;
     clock := (datetime_now (clock w)).2;
     files := files w;
     stdout := stdout w |}.

(** The same world with other files and other printed output. *)
Definition with_sinks (w : world) (fs : gmap string (list row))
    (out : list string) : world :=
  {| np_rng := np_rng w; py_rng := py_rng w; clock := clock w;
     files := fs; stdout := out |}.

(** Two worlds whose three sources are in the same states. *)
Definition same_sources (w1 w2 : world) : Prop :=
  np_rng w1 = np_rng w2 /\ py_rng w1 = py_rng w2 /\ clock w1 = clock w2.

(** Two worlds whose random generators are in the same state. *)
Definition same_seed (w1 w2 : world) : Prop :=
  np_rng w1 = np_rng w2 /\ py_rng w1 = py_rng w2.

End Model.

(** ** Vocabulary of the statements *)

(** Two records that agree on every field except [Test_Date]. *)
Definition same_measurement (r1 r2 : row) : Prop :=
  row_cell r1 = row_cell r2 /\
  Inhibition_Zone_mm r1 = Inhibition_Zone_mm r2 /\
  Activity_Level r1 = Activity_Level r2.

(** The iterations of the loop nest in the order the code runs them: a
    [cell] here holds the loop variables, so its last component is the
    zero-based [replicate]. *)
Definition loop_cells (plants bacts : list string) (concs : list Z) : list cell :=
  plant ← plants; bacterium ← bacts; concentration ← concs;
  (fun replicate => (plant, bacterium, concentration, replicate)) <$> range 3.

(** The categorical fields of the record that iteration [cl] appends:
    the stored replicate index is one more than the loop variable. *)
Definition record_cell (cl : cell) : cell :=
  (cl.1.1.1, cl.1.1.2, cl.1.2, cl.2 + 1).

(** The categorical fields of the record at position [n] of the output:
    the extract changes every 120 records, the bacterium every 15, the
    concentration every 3, and the replicate index cycles through 1, 2, 3. *)
Definition cell_at (n : nat) : cell :=
  (nth (n / 120) plant_extracts "",
   nth (n / 15 mod 8) bacteria "",
   nth (n / 3 mod 5) concentrations 0,
   Z.of_nat (n mod 3) + 1).

(** The values that rounding carries across a threshold: those less
    than 0.005 below 10, 15 or 20 (the lower end included, since the
    tie goes up to the even hundredth). *)
Definition rounds_across (z : R) : Prop :=
  (10 - 5 / 1000 <= z < 10)%R \/ (15 - 5 / 1000 <= z < 15)%R \/
  (20 - 5 / 1000 <= z < 20)%R.

(** A configuration with none of the defects the specification lists:
    no empty catalog, no non-positive concentration, no negative
    variance (and every catalog entry has its table entry). *)
Definition valid_configuration (plants bacts : list string) (concs : list Z) : Prop :=
  plants <> [] /\ bacts <> [] /\ concs <> [] /\
  Forall (fun c => 0 < c) concs /\
  Forall (fun p => exists e, plant_effectiveness !! p = Some e /\ 0 <= variance e) plants /\
  Forall (fun b => is_Some (bacterial_resistance !! b)) bacts.

(** *** Stand-ins for the ambient sources

    A generator that returns the same value at every draw (noise stubbed
    to a constant), and a clock that reads the same instant at every
    call. *)
Definition constant_normal (x : R) : R -> R -> unit -> R * unit :=
  fun _ _ g => (x, g).

Definition constant_randint (d : Z) : Z -> Z -> unit -> Z * unit :=
  fun _ _ g => (d, g).

Definition frozen_clock : Z -> Z * Z := fun t => (t, t).

(** The ambient sources made of these stand-ins. *)
Definition stub_ambient (noise : R) (days : Z) : Ambient :=
  {| np_state := unit; py_state := unit; clock_state := Z;
     np_random_normal := constant_normal noise;
     random_randint := constant_randint days;
     datetime_now := frozen_clock |}.

(** A world for these stand-ins: no file yet, nothing printed, the clock
    at instant [t]. *)
Definition stub_world (noise : R) (days t : Z) : @world (stub_ambient noise days) :=
  @Build_world (stub_ambient noise days) tt tt t ∅ [].

(** ** The draws of a run

    Where each source stands after a number of iterations of the
    innermost loop, which draws once from each (lines 82 and 104). *)

Section Draws.
Context `{Ambient}.

(** Python's generator after [n] calls of [random.randint(1, 30)]. *)
Definition py_skip (n : nat) (q : py_state) : py_state :=
  Nat.iter n (fun q => (random_randint 1 30 q).2) q.

(** The clock after [n] calls of [datetime.now()]. *)
Definition clock_skip (n : nat) (c : clock_state) : clock_state :=
  Nat.iter n (fun c => (datetime_now c).2) c.

(** numpy's generator after one call of [np.random.normal(0, scale)] for
    each scale of the list, in order. *)
Definition np_skip (scales : list Z) (g : np_state) : np_state :=
  fold_left (fun g scale => (np_random_normal 0 (IZR scale) g).2) scales g.

End Draws.

(** The scale of the noise in iteration [cl]: the [variance] entry of its
    extract (0 stands for an extract without table entry, for which the
    code draws nothing). *)
Definition scale_of (cl : cell) : Z :=
  from_option variance 0 (plant_effectiveness !! cl.1.1.1).

(** The scales of the first [n] iterations of the function's loop nest. *)
Definition scales_before (n : nat) : list Z :=
  scale_of <$> take n (loop_cells plant_extracts bacteria concentrations).

(** The records of one experimental condition. *)
Definition of_condition (plant bacterium : string) (concentration : Z)
    (r : row) : Prop :=
  Plant_Extract r = plant /\ Bacteria r = bacterium /\
  Concentration_mg_mL r = concentration.

#[global] Instance of_condition_dec plant bacterium concentration r :
  Decision (of_condition plant bacterium concentration r).
Proof. unfold of_condition. apply _. Defined.

(** * The scripts around the generator

    The [__main__] block of [data_generator.py], the pipeline driver
    [run_complete_analysis.py], and the way the other scripts load the file
    the generator writes. *)

(** The character ["\n"]. *)
Definition newline : string := String (Ascii.ascii_of_nat 10) "".

(** [c * n] for a one-character string [c]. *)
Definition string_repeat (c : string) (n : nat) : string :=
  String.concat "" (repeat c n).

(** [str(n)] for an [int]. *)
Definition string_of_Z (n : Z) : string := NilZero.string_of_int (Z.to_int n).

(** ** [data_generator.py] run as a script (lines 113-117) *)

Section GeneratorScript.
Context `{Ambient}.

(** pandas' rendering of a frame as text, which [print(df.head(10))]
    writes: a function of the rows shown. *)
Variable frame_to_string : list row -> string.

(** [df.shape]: a frame built from a non-empty list of the seven-key
    dictionaries has seven columns, one built from [[]] has none. *)
Definition shape (df : list row) : nat * nat :=
  (length df, match df with [] => 0%nat | _ :: _ => 7%nat end).

(** [str] of a pair of [int]s. *)
Definition string_of_pair (p : nat * nat) : string :=
  "(" ++ string_of_nat p.1 ++ ", " ++ string_of_nat p.2 ++ ")".

Definition data_generator_main : M unit :=
  bind generate_antibacterial_data (fun df =>
  bind (print (newline ++ "Data Preview:")) (fun _ =>
  bind (print (frame_to_string (take 10 df))) (fun _ =>
  print (newline ++ "Data shape: " ++ string_of_pair (shape df))))).

End GeneratorScript.

(** ** Scripts that can raise

    Exceptions other than the generator's [KeyError], and a state
    monad in which a raised exception keeps the state reached. *)

Inductive py_error : Type :=
  | ZeroDivisionError
  | ValueError (message : string)
  | OtherError (kind message : string).

Definition Py (St A : Type) : Type := St -> (A + py_error) * St.

Definition py_ret {St A} (a : A) : Py St A := fun s => (inl a, s).

Definition py_raise {St A} (e : py_error) : Py St A := fun s => (inr e, s).

Definition py_bind {St A B} (m : Py St A) (k : A -> Py St B) : Py St B :=
  fun s => match m s with
           | (inl a, s') => k a s'
           | (inr e, s') => (inr e, s')
           end.

(** A [for] statement in [Py]. *)
Fixpoint py_for {St X} (xs : list X) (body : X -> Py St unit) : Py St unit :=
  match xs with
  | [] => py_ret tt
  | x :: xs' => py_bind (body x) (fun _ => py_for xs' body)
  end.

(** ** [run_complete_analysis.py] *)

(** What [subprocess.run] does: it returns a completed process with a
    return code, or raises an exception [e], of which the code uses
    [str(e)]. *)
Inductive run_result : Type :=
  | Completed (returncode : Z)
  | RunError (message : string).

(** The operating system as the driver sees it: running a script moves
    it to a new state. *)
Class Processes : Type := {
  proc_state : Type;
  subprocess_run : string -> proc_state -> run_result * proc_state
}.

(** A Python [dict] with string keys, in insertion order:
    [d[key] = value] replaces the value of a key already present and
    appends a new key. *)
Fixpoint dict_set {V} (key : string) (value : V) (d : list (string * V))
    : list (string * V) :=
  match d with
  | [] => [(key, value)]
  | (k, v) :: d' =>
      if decide (k = key) then (k, value) :: d' else (k, v) :: dict_set key value d'
  end.

(** [sum(results.values())] for a dictionary of [bool]s. *)
Definition count_true (d : list (string * bool)) : nat :=
  length (filter (fun kv => kv.2 = true) d).

(** [f"{s:<30}"]: [s] padded with spaces on the right to 30 characters. *)
Definition ljust30 (s : string) : string :=
  s ++ string_repeat " " (30 - String.length s).

(** [f"{(s / t) * 100:.1f}"] for [t] not 0, with the quotient taken
    exactly: the value [100 * s / t] rounded to one decimal, ties to
    even. *)
Definition percent_1f (s t : nat) : string :=
  let scaled := (1000 * s)%nat in
  let q := (scaled / t)%nat in
  let r := (scaled mod t)%nat in
  let tenths :=
    if (2 * r <? t)%nat then q
    else if (t <? 2 * r)%nat then S q
    else if Nat.even q then q else S q in
  string_of_nat (tenths / 10) ++ "." ++ string_of_nat (tenths mod 10).

(** The list [analysis_steps] (lines 42-48). *)
Definition analysis_steps : list (string * string) :=
  [ ("data_generator.py", "Data Generation");
    ("statistical_analysis.py", "Statistical Analysis");
    ("data_visualization.py", "Data Visualization");
    ("machine_learning_analysis.py", "Machine Learning Analysis");
    ("report_generator.py", "Report Generation") ].

Section Driver.
Context `{Processes}.

(** The state of the driver: the processes, and the lines the driver
    itself has printed (what the scripts it runs write to the shared
    terminal is not part of this list). *)
Record shell : Type := {
  procs : proc_state;
  console : list string
}.

Definition sh_print (line : string) : Py shell unit :=
  fun s => (inl tt, {| procs := procs s; console := (console s ++ [line])%list |}).

(** [subprocess.run([sys.executable, script_name], ...)] *)
Definition sh_run (script_name : string) : Py shell run_result :=
  fun s => let (r, p) := subprocess_run script_name (procs s) in
           (inl r, {| procs := p; console := console s |}).

(** Lines 5-27. *)
Definition run_script (script_name description : string) : Py shell bool :=
  py_bind (sh_print (newline ++ string_repeat "=" 60)) (fun _ =>
  py_bind (sh_print ("RUNNING: " ++ description)) (fun _ =>
  py_bind (sh_print (string_repeat "=" 60)) (fun _ =>
  py_bind (sh_run script_name) (fun result =>
  match result with
  | Completed returncode =>
      if decide (returncode = 0) then
        py_bind (sh_print ("✅ " ++ description ++ " completed successfully!"))
          (fun _ => py_ret true)
      else
        py_bind (sh_print ("❌ " ++ description ++ " failed with return code "
                           ++ string_of_Z returncode))
          (fun _ => py_ret false)
  | RunError message =>
      py_bind (sh_print ("❌ Error running " ++ description ++ ": " ++ message))
        (fun _ => py_ret false)
  end)))).

(** The loop of lines 54-59, with the dictionary [results] as its state. *)
Fixpoint run_steps (steps : list (string * string)) (results : list (string * bool))
    : Py shell (list (string * bool)) :=
  match steps with
  | [] => py_ret results
  | (script, description) :: steps' =>
      py_bind (run_script script description) (fun success =>
      let results := dict_set description success results in
      py_bind (if success then py_ret tt
               else sh_print (newline ++ "⚠️  Warning: " ++ description
                              ++ " failed. Continuing with remaining steps..."))
        (fun _ => run_steps steps' results))
  end.

(** Lines 66-68. *)
Definition print_statuses (results : list (string * bool)) : Py shell unit :=
  py_for results (fun '(step, success) =>
    let status := if (success : bool) then "✅ SUCCESS" else "❌ FAILED" in
    sh_print (ljust30 step ++ " " ++ status)).

(** Lines 70-85. *)
Definition print_outcome (results : list (string * bool)) : Py shell unit :=
  let successful_steps := count_true results in
  let total_steps := length results in
  py_bind (if decide (total_steps = 0%nat) then py_raise ZeroDivisionError
           else sh_print (newline ++ "Overall Success Rate: "
                          ++ string_of_nat successful_steps ++ "/"
                          ++ string_of_nat total_steps ++ " ("
                          ++ percent_1f successful_steps total_steps ++ "%)"))
    (fun _ =>
  if decide (successful_steps = total_steps) then
    py_for [ newline ++ "🎉 Complete analysis pipeline executed successfully!";
             newline ++ "Generated files:";
             "📊 Data: antibacterial_data.csv";
             "📈 Visualizations: *.png files";
             "📋 HTML Report: antibacterial_analysis_report.html";
             "📄 Summary: analysis_summary.txt";
             newline ++ "💡 Open the HTML report in your browser for the complete analysis!" ]
      sh_print
  else
    py_for [ newline ++ "⚠️  Pipeline completed with "
               ++ string_of_nat (total_steps - successful_steps) ++ " failed step(s).";
             "Check the error messages above for troubleshooting." ]
      sh_print).

(** [main] (lines 29-85). *)
Definition pipeline_main : Py shell unit :=
  py_bind (py_for [ "ANTIBACTERIAL ACTIVITY ANALYSIS - COMPLETE PIPELINE";
                    string_repeat "=" 60;
                    "This script will run the complete analysis pipeline:";
                    "1. Generate synthetic data";
                    "2. Perform statistical analysis";
                    "3. Create visualizations";
                    "4. Run machine learning analysis";
                    "5. Generate comprehensive report";
                    "" ] sh_print) (fun _ =>
  py_bind (run_steps analysis_steps []) (fun results =>
  py_bind (py_for [ newline ++ string_repeat "=" 60;
                    "ANALYSIS PIPELINE SUMMARY";
                    string_repeat "=" 60 ] sh_print) (fun _ =>
  py_bind (print_statuses results) (fun _ =>
  print_outcome results)))).

(** *** Vocabulary: what the processes do during a run *)

(** The results of running the scripts in order from state [p], and the
    state reached. *)
Fixpoint run_results (scripts : list string) (p : proc_state)
    : list run_result * proc_state :=
  match scripts with
  | [] => ([], p)
  | script :: scripts' =>
      let (r, p1) := subprocess_run script p in
      let (rs, p2) := run_results scripts' p1 in
      (r :: rs, p2)
  end.

(** A run that counts as a success: it completed with return code 0. *)
Definition succeeded (r : run_result) : bool :=
  match r with
  | Completed returncode => bool_decide (returncode = 0)
  | RunError _ => false
  end.

End Driver.

(** ** Loading the file (the other four scripts) *)

Section Loading.
Context `{Ambient}.

(** A frame as [pd.read_csv] returns it, and pandas' parser, which
    returns a frame or raises for the table a file holds. *)
Variable frame : Type.
Variable read_csv : list row -> frame + py_error.

Definition w_print (line : string) : Py world unit :=
  fun w => (inl tt, {| np_rng := np_rng w; py_rng := py_rng w; clock := clock w;
                       files := files w; stdout := (stdout w ++ [line])%list |}).

(** [pd.read_csv('antibacterial_data.csv')] inside [try]: either
    [FileNotFoundError], the only exception the callers catch, or what
    the parser does. *)
Definition try_read_csv : Py world (option frame) :=
  fun w => match files w !! "antibacterial_data.csv" with
           | None => (inl None, w)
           | Some table =>
               match read_csv table with
               | inl df => (inl (Some df), w)
               | inr e => (inr e, w)
               end
           end.

(** [load_data] of [statistical_analysis.py] (lines 8-15),
    [data_visualization.py] (lines 13-20) and [report_generator.py]
    (lines 7-14): the three are the same. *)
Definition load_data : Py world (option frame) :=
  py_bind try_read_csv (fun df =>
  match df with
  | Some df => py_ret (Some df)
  | None =>
      py_bind (w_print "Data file not found. Please run data_generator.py first.")
        (fun _ => py_ret None)
  end).

(** [main] of the same three scripts: [df = load_data()], [if df is
    None: return], and then the analysis of the script, [rest]. *)
Definition guarded_main (rest : frame -> Py world unit) : Py world unit :=
  py_bind load_data (fun df =>
  match df with
  | None => py_ret tt
  | Some df => rest df
  end).

(** The values of [machine_learning_analysis.py] that matter below:
    [None], and the four objects [X], [y], [df] and [encoders] that
    lines 23-38 of [load_and_prepare_data] build from a frame, unless
    they raise. *)
Variable prepared : Type.
Variable prepare :
  frame -> (prepared * prepared * prepared * prepared) + py_error.

Inductive py_value : Type :=
  | PyNone
  | PyObject (v : prepared).

(** [load_and_prepare_data] (lines 13-40): it returns a tuple of two
    [None]s when the file is missing and a tuple of four objects
    otherwise. *)
Definition load_and_prepare_data : Py world (list py_value) :=
  py_bind try_read_csv (fun df =>
  match df with
  | None =>
      py_bind (w_print "Data file not found. Please run data_generator.py first.")
        (fun _ => py_ret [PyNone; PyNone])
  | Some df =>
      match prepare df with
      | inl (X, y, df', encoders) =>
          py_ret [PyObject X; PyObject y; PyObject df'; PyObject encoders]
      | inr e => py_raise e
      end
  end).

(** [a, b, c, d = t] for a tuple [t]. *)
Definition unpack4 (t : list py_value)
    : Py world (py_value * py_value * py_value * py_value) :=
  match t with
  | [a; b; c; d] => py_ret (a, b, c, d)
  | _ =>
      if (length t <? 4)%nat then
        py_raise (ValueError ("not enough values to unpack (expected 4, got "
                              ++ string_of_nat (length t) ++ ")"))
      else py_raise (ValueError "too many values to unpack (expected 4)")
  end.

(** [main] of [machine_learning_analysis.py] (lines 235-265), with the
    analysis after the guard as [rest]. *)
Definition ml_main
    (rest : py_value -> py_value -> py_value -> py_value -> Py world unit)
    : Py world unit :=
  py_bind (w_print "MACHINE LEARNING ANALYSIS") (fun _ =>
  py_bind (w_print (string_repeat "=" 50)) (fun _ =>
  py_bind load_and_prepare_data (fun t =>
  py_bind (unpack4 t) (fun '(X, y, df, encoders) =>
  match X with
  | PyNone => py_ret tt
  | PyObject _ => rest X y df encoders
  end)))).

End Loading.

(** ** The label of an extract

    The expression [name.split('(')[0].strip()] that the visualisation,
    machine-learning and report scripts apply to extract names
    ([data_visualization.py] lines 57, 81, 101, 127 and 175,
    [machine_learning_analysis.py] line 228, [report_generator.py] lines
    267, 357 and 414-416), on strings of ASCII characters. *)

(** [c.isspace()] for an ASCII character: tab, line feed, vertical tab,
    form feed, carriage return, the four separators 28-31 and the space. *)
Definition py_isspace (c : Ascii.ascii) : bool :=
  let n := Ascii.nat_of_ascii c in
  ((9 <=? n)%nat && (n <=? 13)%nat) || ((28 <=? n)%nat && (n <=? 32)%nat).

(** [s.split(sep)[0]] for a one-character [sep]: what precedes the first
    [sep], or all of [s]. *)
Fixpoint before (sep : Ascii.ascii) (s : list Ascii.ascii) : list Ascii.ascii :=
  match s with
  | [] => []
  | c :: s' => if decide (c = sep) then [] else c :: before sep s'
  end.

(** [s.lstrip()] and [s.strip()]. *)
Fixpoint lstrip (s : list Ascii.ascii) : list Ascii.ascii :=
  match s with
  | [] => []
  | c :: s' => if py_isspace c then lstrip s' else s
  end.

Definition strip (s : list Ascii.ascii) : list Ascii.ascii :=
  reverse (lstrip (reverse (lstrip s))).

Definition left_paren : Ascii.ascii := Ascii.ascii_of_nat 40.

Definition short_label (name : string) : string :=
  string_of_list_ascii (strip (before left_paren (list_ascii_of_string name))).

(** * Properties *)

(** ** Rounding and the other numeric primitives *)

Section Numerics.
Local Open Scope R_scope.

Lemma py_max_0_nonneg x : 0 <= py_max 0 x.
Proof. unfold py_max. destruct (Rlt_dec 0 x); lra. Qed.

Lemma py_max_0_of_nonneg x : 0 <= x -> py_max 0 x = x.
Proof. unfold py_max. destruct (Rlt_dec 0 x); lra. Qed.

Lemma py_max_0_mono x y : x <= y -> py_max 0 x <= py_max 0 y.
Proof.
  unfold py_max. destruct (Rlt_dec 0 x), (Rlt_dec 0 y); lra.
Qed.

Lemma rint_bounds x : IZR (rint x) - 1 / 2 <= x <= IZR (rint x) + 1 / 2.
Proof.
  unfold rint. pose proof (Zfloor_bound x) as [Hlo Hhi].
  destruct (Rlt_dec _ _) as [Hd|Hd].
  - lra.
  - destruct (Rlt_dec _ _) as [Hu|Hu].
    + rewrite plus_IZR. lra.
    + destruct (Z.even _); [|rewrite plus_IZR]; lra.
Qed.

Lemma rint_unique (n : Z) x :
  IZR n - 1 / 2 < x < IZR n + 1 / 2 -> rint x = n.
Proof.
  intros [Hlo Hhi]. pose proof (rint_bounds x) as [Blo Bhi].
  assert (IZR (rint x) < IZR n + 1) as H1 by lra.
  assert (IZR n < IZR (rint x) + 1) as H2 by lra.
  rewrite <- plus_IZR in H1, H2.
  apply lt_IZR in H1, H2. lia.
Qed.

Lemma rint_IZR (n : Z) : rint (IZR n) = n.
Proof. apply rint_unique. lra. Qed.

Lemma rint_mono x y : x <= y -> (rint x <= rint y)%Z.
Proof.
  intros Hxy.
  destruct (Z_le_gt_dec (rint x) (rint y)) as [|Hgt]; [assumption|].
  exfalso.
  pose proof (rint_bounds x) as [Xlo _].
  pose proof (rint_bounds y) as [_ Yhi].
  assert (IZR (rint y) + 1 <= IZR (rint x)) as Hstep.
  { rewrite <- plus_IZR. apply IZR_le. lia. }
  assert (x = y) as -> by lra. lia.
Qed.

Lemma rint_ge (n : Z) x : IZR n <= x -> (n <= rint x)%Z.
Proof. intros H. rewrite <- (rint_IZR n). now apply rint_mono. Qed.

Lemma rint_lt (n : Z) x : x < IZR n - 1 / 2 -> (rint x < n)%Z.
Proof.
  intros H. pose proof (rint_bounds x) as [Blo _].
  apply lt_IZR. lra.
Qed.

(** A tie just below an even integer goes up to it. *)
Lemma rint_tie_even (n : Z) :
  Z.even n = true -> rint (IZR n - 1 / 2) = n.
Proof.
  intros Hev. unfold rint.
  assert (Zfloor (IZR n - 1 / 2) = (n - 1)%Z) as ->.
  { apply Zfloor_eq. rewrite minus_IZR. lra. }
  rewrite minus_IZR.
  destruct (Rlt_dec _ _) as [Hd|_]; [lra|].
  destruct (Rlt_dec _ _) as [Hu|_]; [lra|].
  replace (n - 1)%Z with (Z.pred n) by lia.
  rewrite Z.even_pred.
  rewrite <- Z.negb_even, Hev. simpl. lia.
Qed.

Lemma rint_ge_half_even (n : Z) x :
  Z.even n = true -> IZR n - 1 / 2 <= x -> (n <= rint x)%Z.
Proof.
  intros Hev H. rewrite <- (rint_tie_even n Hev) at 1. now apply rint_mono.
Qed.

Lemma round2_nonneg x : 0 <= x -> 0 <= round2 x.
Proof.
  intros H. unfold round2.
  assert (0 <= rint (x * 100))%Z as Hr by (apply rint_ge; lra).
  apply IZR_le in Hr. lra.
Qed.

Lemma round2_mono x y : x <= y -> round2 x <= round2 y.
Proof.
  intros H. unfold round2.
  assert (rint (x * 100) <= rint (y * 100))%Z as Hr by (apply rint_mono; lra).
  apply IZR_le in Hr. lra.
Qed.

(** Rounding never moves a value by more than half a hundredth. *)
Lemma round2_close x : x - 5 / 1000 <= round2 x <= x + 5 / 1000.
Proof. unfold round2. pose proof (rint_bounds (x * 100)). lra. Qed.

(** Rounding at a whole-number threshold [t]: values at or above [t]
    stay there, so do values less than 0.005 below it (the tie goes to
    the even hundredth [100 * t]), and everything further below stays
    below. *)
Lemma round2_ge_threshold (t : Z) x :
  IZR t - 5 / 1000 <= x -> IZR t <= round2 x.
Proof.
  intros H. unfold round2.
  assert (t * 100 <= rint (x * 100))%Z as Hr.
  { apply rint_ge_half_even.
    - rewrite Z.even_mul. simpl. apply orb_true_r.
    - rewrite mult_IZR. lra. }
  apply IZR_le in Hr. rewrite mult_IZR in Hr. lra.
Qed.

Lemma round2_lt_threshold (t : Z) x :
  x < IZR t - 5 / 1000 -> round2 x < IZR t.
Proof.
  intros H. unfold round2.
  assert (rint (x * 100) < t * 100)%Z as Hr.
  { apply rint_lt. rewrite mult_IZR. lra. }
  apply IZR_lt in Hr. rewrite mult_IZR in Hr. lra.
Qed.

Lemma round2_value (n : Z) x :
  IZR n / 100 - 5 / 1000 < x < IZR n / 100 + 5 / 1000 ->
  round2 x = IZR n / 100.
Proof.
  intros H. unfold round2. rewrite (rint_unique n); [reflexivity|lra].
Qed.

End Numerics.

(** ** The tier thresholds *)

Section Tiers.
Local Open Scope R_scope.

Lemma activity_level_High z : 20 <= z -> activity_level z = "High".
Proof. intros H. unfold activity_level. destruct (Rge_dec z 20); [reflexivity|lra]. Qed.

Lemma activity_level_Moderate z : 15 <= z < 20 -> activity_level z = "Moderate".
Proof.
  intros H. unfold activity_level.
  destruct (Rge_dec z 20); [lra|]. destruct (Rge_dec z 15); [reflexivity|lra].
Qed.

Lemma activity_level_Low z : 10 <= z < 15 -> activity_level z = "Low".
Proof.
  intros H. unfold activity_level.
  destruct (Rge_dec z 20); [lra|]. destruct (Rge_dec z 15); [lra|].
  destruct (Rge_dec z 10); [reflexivity|lra].
Qed.

Lemma activity_level_None z : z < 10 -> activity_level z = "None".
Proof.
  intros H. unfold activity_level.
  destruct (Rge_dec z 20); [lra|]. destruct (Rge_dec z 15); [lra|].
  destruct (Rge_dec z 10); [lra|reflexivity].
Qed.

Lemma activity_level_round2 z :
  ~ rounds_across z -> activity_level (round2 z) = activity_level z.
Proof.
  unfold rounds_across. intros Hn.
  pose proof (round2_ge_threshold 10 z) as G10.
  pose proof (round2_ge_threshold 15 z) as G15.
  pose proof (round2_ge_threshold 20 z) as G20.
  pose proof (round2_lt_threshold 10 z) as L10.
  pose proof (round2_lt_threshold 15 z) as L15.
  pose proof (round2_lt_threshold 20 z) as L20.
  destruct (Rle_lt_dec 20 z) as [H20|H20].
  { rewrite !activity_level_High; [reflexivity|lra|apply G20; lra]. }
  destruct (Rle_lt_dec 15 z) as [H15|H15].
  { rewrite !activity_level_Moderate; [reflexivity|lra|].
    split; [apply G15; lra|apply L20; lra]. }
  destruct (Rle_lt_dec 10 z) as [H10|H10].
  { rewrite !activity_level_Low; [reflexivity|lra|].
    split; [apply G10; lra|apply L15; lra]. }
  rewrite !activity_level_None; [reflexivity|lra|apply L10; lra].
Qed.

Lemma activity_level_round2_across z :
  rounds_across z -> activity_level (round2 z) <> activity_level z.
Proof.
  unfold rounds_across.
  pose proof (round2_ge_threshold 10 z) as G10.
  pose proof (round2_ge_threshold 15 z) as G15.
  pose proof (round2_ge_threshold 20 z) as G20.
  pose proof (round2_lt_threshold 15 z) as L15.
  pose proof (round2_lt_threshold 20 z) as L20.
  intros [H|[H|H]].
  - rewrite (activity_level_None z) by lra.
    rewrite (activity_level_Low (round2 z)); [discriminate|].
    split; [apply G10; lra|apply L15; lra].
  - rewrite (activity_level_Low z) by lra.
    rewrite (activity_level_Moderate (round2 z)); [discriminate|].
    split; [apply G15; lra|apply L20; lra].
  - rewrite (activity_level_Moderate z) by lra.
    rewrite (activity_level_High (round2 z)); [discriminate|].
    apply G20; lra.
Qed.

End Tiers.

(** ** The logarithm and the concentration effect *)

Section Logarithm.
Local Open Scope R_scope.

Lemma ln_10_pos : 0 < ln 10.
Proof. rewrite <- ln_1. apply ln_increasing; lra. Qed.

Lemma log10_1 : log10 1 = 0.
Proof. unfold log10. rewrite ln_1. pose proof ln_10_pos. field. lra. Qed.

Lemma log10_10 : log10 10 = 1.
Proof. unfold log10. pose proof ln_10_pos. field. lra. Qed.

Lemma log10_mult x y : 0 < x -> 0 < y -> log10 (x * y) = log10 x + log10 y.
Proof.
  intros Hx Hy. unfold log10. rewrite ln_mult by assumption.
  pose proof ln_10_pos. field. lra.
Qed.

Lemma log10_le x y : 0 < x -> x <= y -> log10 x <= log10 y.
Proof.
  intros Hx [Hlt| ->]; [|lra].
  unfold log10. pose proof ln_10_pos as H10.
  pose proof (ln_increasing x y Hx Hlt) as Hln.
  apply Rmult_le_compat_r; [|lra].
  left. now apply Rinv_0_lt_compat.
Qed.

(** Bounds on a logarithm from a comparison of integer powers. *)
Lemma log10_lt_ratio x (p q : nat) :
  0 < x -> (0 < q)%nat -> x ^ q < 10 ^ p ->
  log10 x < IZR (Z.of_nat p) / IZR (Z.of_nat q).
Proof.
  intros Hx Hq Hpow. rewrite <- !INR_IZR_INZ.
  unfold log10. pose proof ln_10_pos as H10.
  assert (0 < INR q) as Hq' by (apply lt_0_INR; lia).
  assert (INR q * ln x < INR p * ln 10) as Hln.
  { rewrite <- !ln_pow by lra. apply ln_increasing; [apply pow_lt|]; lra. }
  apply (Rmult_lt_reg_r (ln 10 * INR q)); [nra|].
  replace (ln x / ln 10 * (ln 10 * INR q)) with (INR q * ln x) by (field; lra).
  replace (INR p / INR q * (ln 10 * INR q)) with (INR p * ln 10) by (field; lra).
  exact Hln.
Qed.

Lemma log10_gt_ratio x (p q : nat) :
  0 < x -> (0 < q)%nat -> 10 ^ p < x ^ q ->
  IZR (Z.of_nat p) / IZR (Z.of_nat q) < log10 x.
Proof.
  intros Hx Hq Hpow. rewrite <- !INR_IZR_INZ.
  unfold log10. pose proof ln_10_pos as H10.
  assert (0 < INR q) as Hq' by (apply lt_0_INR; lia).
  assert (INR p * ln 10 < INR q * ln x) as Hln.
  { rewrite <- !ln_pow by lra. apply ln_increasing; [apply pow_lt|]; lra. }
  apply (Rmult_lt_reg_r (ln 10 * INR q)); [nra|].
  replace (ln x / ln 10 * (ln 10 * INR q)) with (INR q * ln x) by (field; lra).
  replace (INR p / INR q * (ln 10 * INR q)) with (INR p * ln 10) by (field; lra).
  exact Hln.
Qed.

(** [0.3 < log10 2 < 28/93], from [10^3 < 2^10] and [2^93 < 10^28]. *)
Lemma log10_2_bounds : 3 / 10 < log10 2 < 28 / 93.
Proof.
  split.
  - change (3 / 10) with (IZR (Z.of_nat 3) / IZR (Z.of_nat 10)).
    apply log10_gt_ratio; [lra|lia|].
    change 10 with (IZR 10) at 1. change 2 with (IZR 2).
    rewrite !pow_IZR. apply IZR_lt. reflexivity.
  - change (28 / 93) with (IZR (Z.of_nat 28) / IZR (Z.of_nat 93)).
    apply log10_lt_ratio; [lra|lia|].
    change 10 with (IZR 10). change 2 with (IZR 2).
    rewrite !pow_IZR. apply IZR_lt. reflexivity.
Qed.

Lemma log10_20 : log10 20 = 1 + log10 2.
Proof.
  replace 20 with (10 * 2) by lra.
  rewrite log10_mult by lra. now rewrite log10_10.
Qed.

Lemma conc_effect_reference : conc_effect 10 = 0.
Proof.
  unfold conc_effect. replace (10 / 10) with 1 by lra.
  rewrite log10_1. lra.
Qed.

Lemma conc_effect_mono (c1 c2 : Z) :
  (0 < c1)%Z -> (c1 <= c2)%Z -> conc_effect c1 <= conc_effect c2.
Proof.
  intros Hpos Hle. unfold conc_effect.
  apply IZR_lt in Hpos. apply IZR_le in Hle.
  assert (log10 (IZR c1 / 10) <= log10 (IZR c2 / 10)) by (apply log10_le; lra).
  lra.
Qed.

End Logarithm.

(** ** Loops in the effect monad *)

Section Loops.
Context `{Ambient}.

Lemma for_each_app {X S} (xs ys : list X) (body : X -> S -> M S) s (w : world) :
  for_each (xs ++ ys) body s w =
  match for_each xs body s w with
  | Ok (s', w') => for_each ys body s' w'
  | Raise e => Raise e
  end.
Proof.
  revert s w. induction xs as [|x xs IH]; intros s w; simpl.
  - reflexivity.
  - unfold bind. destruct (body x s w) as [[s1 w1]|e]; [apply IH|reflexivity].
Qed.

Lemma for_each_ext {X S} (xs : list X) (body1 body2 : X -> S -> M S) :
  (forall x s w, body1 x s w = body2 x s w) ->
  forall s (w : world), for_each xs body1 s w = for_each xs body2 s w.
Proof.
  intros Hext. induction xs as [|x xs IH]; intros s w; simpl.
  - reflexivity.
  - unfold bind. rewrite Hext.
    destruct (body2 x s w) as [[s1 w1]|e]; [apply IH|reflexivity].
Qed.

Lemma for_each_fmap {X Y S} (f : X -> Y) (xs : list X) (body : Y -> S -> M S)
    s (w : world) :
  for_each (f <$> xs) body s w = for_each xs (fun x => body (f x)) s w.
Proof.
  revert s w. induction xs as [|x xs IH]; intros s w.
  - reflexivity.
  - rewrite fmap_cons. simpl. unfold bind.
    destruct (body (f x) s w) as [[s1 w1]|e]; [apply IH|reflexivity].
Qed.

(** A loop inside a loop is one loop over the concatenated ranges. *)
Lemma for_each_bind {X Y S} (f : X -> list Y) (xs : list X)
    (body : Y -> S -> M S) s (w : world) :
  for_each (xs ≫= f) body s w =
  for_each xs (fun x s => for_each (f x) body s) s w.
Proof.
  revert s w. induction xs as [|x xs IH]; intros s w.
  - reflexivity.
  - rewrite bind_cons, for_each_app. simpl. unfold bind.
    destruct (for_each (f x) body s w) as [[s1 w1]|e]; [apply IH|reflexivity].
Qed.

(** A loop whose body always succeeds and appends one element related
    to its loop variable succeeds, and appends one related element per
    iteration, in order. *)
Lemma for_each_appends {X A} (P : X -> A -> Prop) (xs : list X)
    (body : X -> list A -> M (list A)) :
  (forall x s w, x ∈ xs ->
     exists a w', body x s w = Ok ((s ++ [a])%list, w') /\ P x a) ->
  forall s (w : world),
    exists added w',
      for_each xs body s w = Ok ((s ++ added)%list, w') /\ Forall2 P xs added.
Proof.
  induction xs as [|x xs IH]; intros Hbody s w; simpl.
  - exists [], w. rewrite app_nil_r. split; [reflexivity|constructor].
  - destruct (Hbody x s w) as (a & w1 & Hrun & Ha); [apply list_elem_of_here|].
    destruct (IH (fun y s w H => Hbody y s w (list_elem_of_further _ _ _ H))
                (s ++ [a])%list w1)
      as (added & w2 & Hrest & Hall).
    exists (a :: added), w2. unfold bind. rewrite Hrun, Hrest.
    rewrite <- app_assoc. split; [reflexivity|now constructor].
Qed.

(** What the body leaves alone, the loop leaves alone. *)
Lemma for_each_preserves {X S B} (f : world -> B) (xs : list X)
    (body : X -> S -> M S) :
  (forall x s w s' w', body x s w = Ok (s', w') -> f w' = f w) ->
  forall s w s' w', for_each xs body s w = Ok (s', w') -> f w' = f w.
Proof.
  intros Hbody. induction xs as [|x xs IH]; intros s w s' w'; simpl.
  - unfold ret. intros [= _ ->]. reflexivity.
  - unfold bind. destruct (body x s w) as [[s1 w1]|e] eqn:Hrun; [|discriminate].
    intros Hrest. rewrite (IH _ _ _ _ Hrest). eauto.
Qed.

(** Two runs of a loop from related states: when the body keeps the
    local states and the worlds related, so does the loop. *)
Lemma for_each_related {X S} (RS : S -> S -> Prop) (RW : world -> world -> Prop)
    (xs : list X) (body : X -> S -> M S) :
  (forall x s1 s2 w1 w2 s1' w1' s2' w2',
     RS s1 s2 -> RW w1 w2 ->
     body x s1 w1 = Ok (s1', w1') -> body x s2 w2 = Ok (s2', w2') ->
     RS s1' s2' /\ RW w1' w2') ->
  forall s1 s2 w1 w2 s1' w1' s2' w2',
    RS s1 s2 -> RW w1 w2 ->
    for_each xs body s1 w1 = Ok (s1', w1') ->
    for_each xs body s2 w2 = Ok (s2', w2') ->
    RS s1' s2' /\ RW w1' w2'.
Proof.
  intros Hbody. induction xs as [|x xs IH];
    intros s1 s2 w1 w2 s1' w1' s2' w2' HS HW; simpl.
  - unfold ret. intros [= <- <-] [= <- <-]. now split.
  - unfold bind.
    destruct (body x s1 w1) as [[t1 v1]|e1] eqn:Hrun1; [|discriminate].
    destruct (body x s2 w2) as [[t2 v2]|e2] eqn:Hrun2; [|discriminate].
    destruct (Hbody _ _ _ _ _ _ _ _ _ HS HW Hrun1 Hrun2) as [HS' HW'].
    now apply IH.
Qed.

End Loops.

(** ** The loop nest of the generator *)

Lemma in_loop_cells plants bacts concs p b c k :
  (p, b, c, k) ∈ loop_cells plants bacts concs <->
  p ∈ plants /\ b ∈ bacts /\ c ∈ concs /\ k ∈ range 3.
Proof.
  unfold loop_cells. rewrite list_elem_of_bind. split.
  - intros (p' & H & Hp). apply list_elem_of_bind in H as (b' & H & Hb).
    apply list_elem_of_bind in H as (c' & H & Hc).
    apply list_elem_of_fmap in H as (k' & [= -> -> -> ->] & Hk). auto.
  - intros (Hp & Hb & Hc & Hk). exists p. split; [|assumption].
    apply list_elem_of_bind. exists b. split; [|assumption].
    apply list_elem_of_bind. exists c. split; [|assumption].
    apply list_elem_of_fmap. exists k. auto.
Qed.

Lemma length_bind_const {X Y} (f : X -> list Y) (n : nat) (xs : list X) :
  (forall x, length (f x) = n) -> length (xs ≫= f) = (length xs * n)%nat.
Proof.
  intros Hf. induction xs as [|x xs IH]; [reflexivity|].
  rewrite bind_cons, length_app, Hf, IH. simpl. lia.
Qed.

Lemma length_loop_cells plants bacts concs :
  length (loop_cells plants bacts concs) =
  (length plants * length bacts * length concs * 3)%nat.
Proof.
  unfold loop_cells.
  rewrite (length_bind_const _ (length bacts * length concs * 3)); [lia|].
  intros p. rewrite (length_bind_const _ (length concs * 3)); [lia|].
  intros b. rewrite (length_bind_const _ 3); [lia|].
  intros c. reflexivity.
Qed.

(** Catalogs without repeated entries give a loop nest without repeated
    iterations. *)
Lemma NoDup_loop_cells plants bacts concs :
  NoDup plants -> NoDup bacts -> NoDup concs ->
  NoDup (loop_cells plants bacts concs).
Proof.
  intros Hp Hb Hc. unfold loop_cells.
  apply NoDup_bind; [|intros p _|assumption].
  { intros p1 p2 y _ _ H1 H2.
    apply list_elem_of_bind in H1 as (b1 & H1 & _).
    apply list_elem_of_bind in H1 as (c1 & H1 & _).
    apply list_elem_of_fmap in H1 as (k1 & -> & _).
    apply list_elem_of_bind in H2 as (b2 & H2 & _).
    apply list_elem_of_bind in H2 as (c2 & H2 & _).
    apply list_elem_of_fmap in H2 as (k2 & [= -> _ _ _] & _). reflexivity. }
  apply NoDup_bind; [|intros b _|assumption].
  { intros b1 b2 y _ _ H1 H2.
    apply list_elem_of_bind in H1 as (c1 & H1 & _).
    apply list_elem_of_fmap in H1 as (k1 & -> & _).
    apply list_elem_of_bind in H2 as (c2 & H2 & _).
    apply list_elem_of_fmap in H2 as (k2 & [= -> _ _] & _). reflexivity. }
  apply NoDup_bind; [|intros c _|assumption].
  { intros c1 c2 y _ _ H1 H2.
    apply list_elem_of_fmap in H1 as (k1 & -> & _).
    apply list_elem_of_fmap in H2 as (k2 & [= -> _] & _). reflexivity. }
  apply NoDup_fmap_2.
  - intros k1 k2 [= ->]. reflexivity.
  - unfold range. apply NoDup_fmap_2; [apply _|apply NoDup_seq].
Qed.

#[global] Instance record_cell_inj : Inj eq eq record_cell.
Proof.
  intros [[[p1 b1] c1] k1] [[[p2 b2] c2] k2]. unfold record_cell. simpl.
  intros [= -> -> -> Hk]. f_equal. lia.
Qed.

(** Every catalog entry is a key of its table; bases and variances are
    not negative, resistance factors are positive, and no concentration
    is below the reference 10 mg/mL. *)
Lemma plant_lookups :
  Forall (fun p => exists e, plant_effectiveness !! p = Some e /\
                             0 <= variance e /\ 0 <= base e)
         plant_extracts.
Proof.
  unfold plant_extracts.
  repeat (apply List.Forall_cons;
          [eexists; split; [vm_compute; reflexivity|simpl; lia]|]).
  apply List.Forall_nil.
Qed.

Lemma bacteria_lookups :
  Forall (fun b => exists rf, bacterial_resistance !! b = Some rf /\ (0 < rf)%Q)
         bacteria.
Proof.
  unfold bacteria.
  repeat (apply List.Forall_cons;
          [eexists; split; [vm_compute; reflexivity|reflexivity]|]).
  apply List.Forall_nil.
Qed.

Lemma concentrations_from_reference : Forall (fun c => 10 <= c) concentrations.
Proof. unfold concentrations. repeat constructor; lia. Qed.

Section Generator.
Context `{Ambient}.

Lemma generate_rows_flat plants bacts concs data (w : world) :
  generate_rows plants bacts concs data w =
  for_each (loop_cells plants bacts concs) measure_cell data w.
Proof.
  unfold generate_rows, loop_cells.
  rewrite for_each_bind. apply for_each_ext. intros p s1 w1.
  rewrite for_each_bind. apply for_each_ext. intros b s2 w2.
  rewrite for_each_bind. apply for_each_ext. intros c s3 w3.
  now rewrite for_each_fmap.
Qed.

Lemma measure_Ok p b c k data (w : world) e rf :
  plant_effectiveness !! p = Some e ->
  bacterial_resistance !! b = Some rf ->
  measure p b c k data w =
  Ok ((data ++ [record_of (p, b, c, k) e rf
                  (np_random_normal 0 (IZR (variance e)) (np_rng w)).1
                  (datetime_now (clock w)).1
                  (random_randint 1 30 (py_rng w)).1])%list,
      after_measure e w).
Proof.
  intros He Hrf.
  unfold measure, bind, subscript, normal, now, randint, ret,
    after_measure, record_of.
  rewrite He, Hrf.
  destruct (np_random_normal 0 (IZR (variance e)) (np_rng w)) as [noise g].
  cbn [np_rng py_rng clock files stdout].
  destruct (datetime_now (clock w)) as [t cl].
  cbn [np_rng py_rng clock files stdout].
  destruct (random_randint 1 30 (py_rng w)) as [d q].
  reflexivity.
Qed.

(** Conversely, an iteration that returns has found both table
    entries and has done exactly that. *)
Lemma measure_inv p b c k data (w : world) data' w' :
  measure p b c k data w = Ok (data', w') ->
  exists e rf,
    plant_effectiveness !! p = Some e /\
    bacterial_resistance !! b = Some rf /\
    data' = (data ++ [record_of (p, b, c, k) e rf
                        (np_random_normal 0 (IZR (variance e)) (np_rng w)).1
                        (datetime_now (clock w)).1
                        (random_randint 1 30 (py_rng w)).1])%list /\
    w' = after_measure e w.
Proof.
  intros Hrun.
  destruct (plant_effectiveness !! p) as [e|] eqn:He.
  - destruct (bacterial_resistance !! b) as [rf|] eqn:Hrf.
    + rewrite (measure_Ok p b c k data w e rf He Hrf) in Hrun.
      injection Hrun as <- <-. exists e, rf. auto.
    + unfold measure, bind, subscript in Hrun.
      rewrite He, Hrf in Hrun. discriminate.
  - unfold measure, bind, subscript in Hrun. rewrite He in Hrun. discriminate.
Qed.

Lemma measure_frame p b c k data (w : world) data' w' :
  measure p b c k data w = Ok (data', w') ->
  files w' = files w /\ stdout w' = stdout w.
Proof.
  intros Hrun. apply measure_inv in Hrun as (e & rf & _ & _ & _ & ->).
  now split.
Qed.

Lemma measure_cell_generated cl data (w : world) :
  is_Some (plant_effectiveness !! cl.1.1.1) ->
  is_Some (bacterial_resistance !! cl.1.1.2) ->
  exists r w', measure_cell cl data w = Ok ((data ++ [r])%list, w') /\
               generated_by cl r.
Proof.
  destruct cl as [[[p b] c] k]. intros [e He] [rf Hrf]. simpl in He, Hrf.
  eexists _, _. split.
  - unfold measure_cell. exact (measure_Ok p b c k data w e rf He Hrf).
  - exists e, rf, (np_rng w), (datetime_now (clock w)).1,
      (random_randint 1 30 (py_rng w)).1. auto.
Qed.

(** The loop nest over catalogs whose entries are all in the two
    tables: it succeeds, appends one record per iteration in loop
    order, and touches neither the files nor the output. *)
Lemma generate_rows_spec plants bacts concs :
  Forall (fun p => is_Some (plant_effectiveness !! p)) plants ->
  Forall (fun b => is_Some (bacterial_resistance !! b)) bacts ->
  forall data (w : world),
  exists added w',
    generate_rows plants bacts concs data w = Ok ((data ++ added)%list, w') /\
    Forall2 generated_by (loop_cells plants bacts concs) added /\
    files w' = files w /\ stdout w' = stdout w.
Proof.
  intros Hp Hb data w.
  destruct (for_each_appends generated_by (loop_cells plants bacts concs)
              measure_cell) with (s := data) (w := w)
    as (added & w' & Hrun & Hall).
  { intros [[[p b] c] k] s v Hin. apply in_loop_cells in Hin as (Hinp & Hinb & _).
    apply measure_cell_generated; simpl.
    - rewrite Forall_forall in Hp. now apply Hp.
    - rewrite Forall_forall in Hb. now apply Hb. }
  exists added, w'. rewrite generate_rows_flat. split; [assumption|].
  split; [assumption|].
  assert ((files w', stdout w') = (files w, stdout w)) as [= -> ->]; [|now split].
  eapply (for_each_preserves (fun v : world => (files v, stdout v))
            (loop_cells plants bacts concs) measure_cell); [|exact Hrun].
  intros [[[p b] c] k] s v s' v' Hm.
  apply measure_frame in Hm as [-> ->]. reflexivity.
Qed.

(** The function body over such catalogs: after the loops it writes
    the table to the CSV file and prints two lines. *)
Lemma generate_with_spec plants bacts concs (w : world) :
  Forall (fun p => is_Some (plant_effectiveness !! p)) plants ->
  Forall (fun b => is_Some (bacterial_resistance !! b)) bacts ->
  exists df w',
    generate_with plants bacts concs w = Ok (df, w') /\
    Forall2 generated_by (loop_cells plants bacts concs) df /\
    files w' = <["antibacterial_data.csv" := df]> (files w) /\
    stdout w' =
      (stdout w ++
       [ ("Generated " ++ string_of_nat (length df) ++ " data points")%string;
         "Data saved to 'antibacterial_data.csv'" ])%list.
Proof.
  intros Hp Hb.
  destruct (generate_rows_spec plants bacts concs Hp Hb [] w)
    as (df & w1 & Hrun & Hall & Hfiles & Hout).
  simpl in Hrun.
  eexists df, _. split; [|split; [exact Hall|]].
  - unfold generate_with, bind. rewrite Hrun.
    unfold export, bind, to_csv, print, ret. cbn [np_rng py_rng clock files stdout].
    reflexivity.
  - cbn [files stdout]. rewrite Hfiles, Hout.
    split; [reflexivity|].
    rewrite <- app_assoc. reflexivity.
Qed.

(** The whole function on the compiled-in catalogs. *)
Lemma generate_spec (w : world) :
  exists df w',
    generate_antibacterial_data w = Ok (df, w') /\
    Forall2 generated_by (loop_cells plant_extracts bacteria concentrations) df /\
    files w' = <["antibacterial_data.csv" := df]> (files w) /\
    stdout w' = (stdout w ++ [ "Generated 1200 data points";
                               "Data saved to 'antibacterial_data.csv'" ])%list.
Proof.
  destruct (generate_with_spec plant_extracts bacteria concentrations w)
    as (df & w1 & Hrun & Hall & Hfiles & Hout).
  { eapply Forall_impl; [apply plant_lookups|]. intros p (e & -> & _). eauto. }
  { eapply Forall_impl; [apply bacteria_lookups|]. intros b (rf & -> & _). eauto. }
  exists df, w1. repeat split; try assumption.
  rewrite Hout.
  assert (length df = 1200%nat) as ->; [|reflexivity].
  rewrite <- (Forall2_length _ _ _ Hall), length_loop_cells. reflexivity.
Qed.

Lemma generated_by_cell cl r : generated_by cl r -> row_cell r = record_cell cl.
Proof.
  destruct cl as [[[p b] c] k].
  intros (e & rf & g & t & d & _ & _ & ->). reflexivity.
Qed.

Lemma generated_cells cls df :
  Forall2 generated_by cls df -> row_cell <$> df = record_cell <$> cls.
Proof.
  induction 1 as [|cl r cls df Hr _ IH]; [reflexivity|].
  now rewrite !fmap_cons, IH, (generated_by_cell _ _ Hr).
Qed.

(** *** Two runs *)

(** Two runs of the loop nest from worlds whose three sources are in
    the same states append the same records and leave the sources in
    the same states, whatever the files and the output are. *)
Lemma generate_rows_deterministic plants bacts concs data (w1 w2 : world)
    df1 w1' df2 w2' :
  same_sources w1 w2 ->
  generate_rows plants bacts concs data w1 = Ok (df1, w1') ->
  generate_rows plants bacts concs data w2 = Ok (df2, w2') ->
  df1 = df2 /\ same_sources w1' w2'.
Proof.
  rewrite !generate_rows_flat. intros Hw.
  apply (for_each_related eq same_sources); [|reflexivity|assumption].
  intros [[[p b] c] k] s1 s2 v1 v2 s1' v1' s2' v2' <- (Hn & Hp & Hc) H1 H2.
  unfold measure_cell in H1, H2.
  apply measure_inv in H1 as (e & rf & He & Hrf & -> & ->).
  apply measure_inv in H2 as (e' & rf' & He' & Hrf' & -> & ->).
  rewrite He in He'. injection He' as <-.
  rewrite Hrf in Hrf'. injection Hrf' as <-.
  unfold same_sources, after_measure. cbn [np_rng py_rng clock].
  rewrite Hn, Hp, Hc. auto.
Qed.

(** With only the two random generators in the same states, the two
    runs still append records that agree on everything but the date. *)
Lemma generate_rows_same_seed plants bacts concs data (w1 w2 : world)
    df1 w1' df2 w2' :
  same_seed w1 w2 ->
  generate_rows plants bacts concs data w1 = Ok (df1, w1') ->
  generate_rows plants bacts concs data w2 = Ok (df2, w2') ->
  Forall2 same_measurement df1 df2 /\ same_seed w1' w2'.
Proof.
  rewrite !generate_rows_flat. intros Hw.
  apply (for_each_related (Forall2 same_measurement) same_seed);
    [|apply Forall2_same_length_lookup_2; [reflexivity|]|assumption].
  - intros [[[p b] c] k] s1 s2 v1 v2 s1' v1' s2' v2' Hs (Hn & Hp) H1 H2.
    unfold measure_cell in H1, H2.
    apply measure_inv in H1 as (e & rf & He & Hrf & -> & ->).
    apply measure_inv in H2 as (e' & rf' & He' & Hrf' & -> & ->).
    rewrite He in He'. injection He' as <-.
    rewrite Hrf in Hrf'. injection Hrf' as <-.
    split.
    + apply Forall2_app; [assumption|]. constructor; [|constructor].
      unfold same_measurement, record_of, row_cell. cbn. rewrite Hn. auto.
    + unfold same_seed, after_measure. cbn [np_rng py_rng]. rewrite Hn, Hp. auto.
  - intros i r1 r2 H1 H2. rewrite H1 in H2. injection H2 as <-.
    unfold same_measurement. auto.
Qed.

End Generator.

Lemma catalog_cells :
  record_cell <$> loop_cells plant_extracts bacteria concentrations =
  cell_at <$> seq 0 1200.
Proof. vm_compute. reflexivity. Qed.

Lemma catalog_cells_NoDup :
  NoDup (record_cell <$> loop_cells plant_extracts bacteria concentrations).
Proof.
  apply NoDup_fmap_2; [apply _|].
  apply NoDup_loop_cells; refine (bool_decide_unpack _ _); vm_compute; exact I.
Qed.

Lemma Forall2_elem_of_l {X Y} (P : X -> Y -> Prop) (l0 l : list X) (k : list Y) :
  Forall2 P l k -> (forall x, x ∈ l -> x ∈ l0) ->
  Forall2 (fun x y => x ∈ l0 /\ P x y) l k.
Proof.
  induction 1 as [|x y l k Hxy _ IH]; intros Hsub; constructor.
  - split; [apply Hsub, list_elem_of_here|assumption].
  - apply IH. intros z Hz. apply Hsub. now apply list_elem_of_further.
Qed.

Lemma Forall2_Forall_r {X Y} (P : X -> Y -> Prop) (Q : Y -> Prop) l k :
  Forall2 P l k -> (forall x y, x ∈ l -> P x y -> Q y) -> Forall Q k.
Proof.
  intros H HQ. apply (Forall2_elem_of_l P l) in H; [|auto].
  induction H as [|x y l' k' [Hx Hxy] _ IH]; constructor; eauto.
Qed.

(** * The properties the specification states *)

(** C2.  One invocation on the compiled-in catalogs returns exactly
    10 * 8 * 5 * 3 = 1200 records, no two of them with the same
    (extract, bacterium, concentration, replicate) tuple, and every
    replicate index is 1, 2 or 3. *)
Theorem generator_cardinality `{Ambient} (w : world) :
  exists df w',
    generate_antibacterial_data w = Ok (df, w') /\
    length df = (10 * 8 * 5 * 3)%nat /\
    length plant_extracts = 10%nat /\ length bacteria = 8%nat /\
    length concentrations = 5%nat /\
    NoDup (row_cell <$> df) /\
    Forall (fun r => 1 <= Replicate r <= 3) df.
Proof.
  destruct (generate_spec w) as (df & w' & Hrun & Hall & _).
  pose proof (generated_cells _ _ Hall) as Hcells.
  exists df, w'. split; [assumption|]. split.
  { rewrite <- (Forall2_length _ _ _ Hall), length_loop_cells. reflexivity. }
  do 3 (split; [reflexivity|]). split.
  { rewrite Hcells. apply catalog_cells_NoDup. }
  apply (Forall2_Forall_r _ _ _ _ Hall).
  intros [[[p b] c] k] r Hin Hgen.
  apply in_loop_cells in Hin as (_ & _ & _ & Hk).
  apply generated_by_cell in Hgen. injection Hgen as _ _ _ ->.
  unfold range in Hk. apply list_elem_of_fmap in Hk as (n & -> & Hn).
  apply elem_of_seq in Hn. simpl. lia.
Qed.

(** C10.  The records come out in the order of the loop nest: the
    extract varies slowest (in catalog order), then the bacterium, then
    the concentration (10, 25, 50, 100, 200), then the replicate (1, 2,
    3).  So the four categorical fields of the record at position [n]
    are [cell_at n], which mentions neither the ambient sources nor the
    world the function starts from. *)
Theorem records_in_loop_order `{Ambient} (w : world) :
  exists df w',
    generate_antibacterial_data w = Ok (df, w') /\
    concentrations = [10; 25; 50; 100; 200] /\
    forall n, (n < 1200)%nat -> row_cell <$> (df !! n) = Some (cell_at n).
Proof.
  destruct (generate_spec w) as (df & w' & Hrun & Hall & _).
  pose proof (generated_cells _ _ Hall) as Hcells.
  rewrite catalog_cells in Hcells.
  exists df, w'. split; [assumption|]. split; [reflexivity|].
  intros n Hn. rewrite <- list_lookup_fmap, Hcells, list_lookup_fmap.
  rewrite lookup_seq_lt by assumption. reflexivity.
Qed.

(** C3.  Whatever the noise drawn, the value after the floor at zero is
    not negative and neither is its rounding; so every record of every
    run stores a non-negative [Inhibition_Zone_mm]. *)
Theorem inhibition_zone_nonnegative `{Ambient} (w : world) :
  (forall base_effectiveness resistance_factor concentration noise,
     (0 <= round2 (inhibition_zone base_effectiveness resistance_factor
                     concentration noise))%R) /\
  exists df w',
    generate_antibacterial_data w = Ok (df, w') /\
    Forall (fun r => (0 <= Inhibition_Zone_mm r)%R) df.
Proof.
  assert (forall b rf c n, (0 <= round2 (inhibition_zone b rf c n))%R) as Hnn.
  { intros b rf c n. apply round2_nonneg, py_max_0_nonneg. }
  split; [exact Hnn|].
  destruct (generate_spec w) as (df & w' & Hrun & Hall & _).
  exists df, w'. split; [assumption|].
  apply (Forall2_Forall_r _ _ _ _ Hall).
  intros [[[p b] c] k] r _ (e & rf & g & t & d & _ & _ & ->).
  apply Hnn.
Qed.

Lemma Q2R_decimal (n : Z) (d : positive) : Q2R (n # d) = (IZR n / IZR (Z.pos d))%R.
Proof. reflexivity. Qed.

Lemma inhibition_zone_reference b rf noise :
  inhibition_zone b rf 10 noise = py_max 0 (IZR b * Q2R rf + noise)%R.
Proof.
  unfold inhibition_zone. rewrite conc_effect_reference. f_equal. lra.
Qed.

Lemma catalog_first_cell :
  exists rest,
    loop_cells plant_extracts bacteria concentrations =
    ("Garlic (Allium sativum)", "Escherichia coli", 10, 0) :: rest.
Proof. eexists. vm_compute. reflexivity. Qed.

Lemma garlic_profile :
  plant_effectiveness !! "Garlic (Allium sativum)" =
  Some {| base := 15; variance := 5 |}.
Proof. vm_compute. reflexivity. Qed.

Lemma coli_resistance : bacterial_resistance !! "Escherichia coli" = Some 1.0%Q.
Proof. vm_compute. reflexivity. Qed.

(** The first record of a run whose noise is the constant [x]: garlic on
    E. coli at the reference concentration, so the value before the floor
    is [15 * 1.0 + x]. *)
Lemma constant_noise_first_record x days (w : @world (stub_ambient x days)) :
  exists df w' r rest,
    generate_antibacterial_data w = Ok (df, w') /\
    df = r :: rest /\
    Inhibition_Zone_mm r = round2 (py_max 0 (15 + x))%R /\
    Activity_Level r = activity_level (py_max 0 (15 + x))%R.
Proof.
  destruct (generate_spec w) as (df & w' & Hrun & Hall & _).
  destruct catalog_first_cell as [cells Hcells]. rewrite Hcells in Hall.
  inversion Hall as [|c0 r cells' rest Hgen Hrest]; subst.
  exists (r :: rest), w', r, rest. split; [assumption|]. split; [reflexivity|].
  destruct Hgen as (e & rf & g & t & d & He & Hrf & ->).
  cbn [fst snd] in He, Hrf.
  rewrite garlic_profile in He. injection He as <-.
  rewrite coli_resistance in Hrf. injection Hrf as <-.
  unfold record_of. cbn [Inhibition_Zone_mm Activity_Level base variance].
  rewrite inhibition_zone_reference, Q2R_decimal.
  replace (IZR 15 * (IZR 10 / IZR (Z.pos 10)) +
           (np_random_normal 0 (IZR 5) g).1)%R with (15 + x)%R; [auto|].
  unfold np_random_normal, stub_ambient, constant_normal. cbn [fst]. lra.
Qed.

(** C1, as stated, fails.  With the noise stubbed to 4.996 the first
    record (garlic, E. coli, 10 mg/mL) has the value 19.996 before
    rounding: the code classifies that value (Moderate) and then stores
    its rounding 20.00, which the partition puts in High. *)
Lemma tier_of_stored_value_counterexample :
  exists df w' r,
    @generate_antibacterial_data (stub_ambient (4996 / 1000) 1)
      (stub_world (4996 / 1000) 1 0) = Ok (df, w') /\
    r ∈ df /\
    Inhibition_Zone_mm r = 20%R /\
    Activity_Level r = "Moderate" /\
    activity_level (Inhibition_Zone_mm r) = "High" /\
    Activity_Level r <> activity_level (Inhibition_Zone_mm r).
Proof.
  destruct (constant_noise_first_record (4996 / 1000) 1 (stub_world (4996 / 1000) 1 0))
    as (df & w' & r & rest & Hrun & -> & Hzone & Hlevel).
  rewrite py_max_0_of_nonneg in Hzone, Hlevel by lra.
  assert (Inhibition_Zone_mm r = 20%R) as H20.
  { rewrite Hzone, (round2_value 2000) by lra. lra. }
  assert (Activity_Level r = "Moderate") as Hm.
  { rewrite Hlevel. apply activity_level_Moderate. lra. }
  assert (activity_level (Inhibition_Zone_mm r) = "High") as Hh.
  { rewrite H20. apply activity_level_High. lra. }
  exists (r :: rest), w', r. split; [assumption|].
  split; [apply list_elem_of_here|].
  repeat split; try assumption. rewrite Hm, Hh. discriminate.
Qed.

Lemma conc_effect_nonneg c : 10 <= c -> (0 <= conc_effect c)%R.
Proof.
  intros Hc. rewrite <- conc_effect_reference. apply conc_effect_mono; lia.
Qed.

Lemma Q2R_pos q : (0 < q)%Q -> (0 < Q2R q)%R.
Proof. intros Hq. rewrite <- RMicromega.Q2R_0. now apply Qlt_Rlt. Qed.

Lemma clove_profile :
  plant_effectiveness !! "Clove (Syzygium aromaticum)" =
  Some {| base := 19; variance := 3 |}.
Proof. vm_compute. reflexivity. Qed.

Lemma pseudomonas_resistance :
  bacterial_resistance !! "Pseudomonas aeruginosa" = Some 0.6%Q.
Proof. vm_compute. reflexivity. Qed.

(** The zero-noise value for clove on Pseudomonas at 200 mg/mL. *)
Lemma clove_pseudomonas_value :
  inhibition_zone 19 0.6 200 0 = ((19 + log10 20 * 3) * (6 / 10))%R /\
  (1374 / 100 < inhibition_zone 19 0.6 200 0 < 13742 / 1000)%R.
Proof.
  pose proof log10_2_bounds as [Hlo Hhi]. pose proof log10_20 as H20.
  assert (inhibition_zone 19 0.6 200 0 = ((19 + log10 20 * 3) * (6 / 10))%R) as Hv.
  { unfold inhibition_zone, conc_effect. rewrite Q2R_decimal.
    replace (IZR 200 / 10)%R with 20%R by lra.
    rewrite py_max_0_of_nonneg; lra. }
  split; [exact Hv|]. rewrite Hv. lra.
Qed.

(** C5.  Clove (base 19) on Pseudomonas (resistance factor 0.6) at
    200 mg/mL with the noise stubbed to 0: the value is
    [(19 + log10(20) * 3) * 0.6], which lies between 13.74 and 13.742
    (within 0.01 of the 13.75 the specification quotes) and between 10
    and 15, so its tier is Low.  In a run with zero noise every record
    for that combination stores 13.74 and Low, and the record at
    position 1137 is the first of them. *)
Theorem clove_pseudomonas_200_is_low (days : Z)
    (w : @world (stub_ambient 0 days)) :
  let value := inhibition_zone 19 0.6 200 0 in
  value = ((19 + log10 20 * 3) * (6 / 10))%R /\
  (Rabs (value - 1375 / 100) < 1 / 100)%R /\
  (10 <= value < 15)%R /\
  activity_level value = "Low" /\
  exists df w',
    generate_antibacterial_data w = Ok (df, w') /\
    Forall (fun r =>
      Plant_Extract r = "Clove (Syzygium aromaticum)" ->
      Bacteria r = "Pseudomonas aeruginosa" ->
      Concentration_mg_mL r = 200 ->
      Inhibition_Zone_mm r = (1374 / 100)%R /\ Activity_Level r = "Low") df /\
    exists r, df !! 1137%nat = Some r /\
      row_cell r = ("Clove (Syzygium aromaticum)", "Pseudomonas aeruginosa", 200, 1).
Proof.
  intros value. destruct clove_pseudomonas_value as [Hv [Hlo Hhi]].
  fold value in Hv, Hlo, Hhi.
  assert (activity_level value = "Low") as Hlow
    by (apply activity_level_Low; lra).
  split; [exact Hv|]. split; [apply Rabs_def1; lra|]. split; [lra|].
  split; [exact Hlow|].
  destruct (generate_spec w) as (df & w' & Hrun & Hall & _).
  exists df, w'. split; [assumption|]. split.
  - apply (Forall2_Forall_r _ _ _ _ Hall).
    intros [[[p b] c] k] r _ (e & rf & g & t & d & He & Hrf & ->).
    unfold record_of.
    cbn [Plant_Extract Bacteria Concentration_mg_mL Inhibition_Zone_mm
         Activity_Level].
    intros -> -> ->. cbn [fst snd] in He, Hrf.
    rewrite clove_profile in He. injection He as <-.
    rewrite pseudomonas_resistance in Hrf. injection Hrf as <-.
    cbn [base variance np_random_normal stub_ambient constant_normal fst].
    fold value. split; [|exact Hlow].
    apply (round2_value 1374). lra.
  - pose proof (generated_cells _ _ Hall) as Hcells.
    rewrite catalog_cells in Hcells.
    assert (row_cell <$> (df !! 1137%nat) = Some (cell_at 1137)) as Hn.
    { rewrite <- list_lookup_fmap, Hcells, list_lookup_fmap.
      rewrite lookup_seq_lt by lia. reflexivity. }
    destruct (df !! 1137%nat) as [r|]; [|discriminate].
    exists r. split; [reflexivity|].
    transitivity (cell_at 1137); [|reflexivity].
    cbn [fmap option_fmap option_map] in Hn. congruence.
Qed.

(** C6.  With the extract and the bacterium fixed and a positive
    resistance factor, the floored value
    [max(0, (base + log10(c / 10) * 3) * resistance_factor + noise)] is
    non-decreasing in the concentration [c] over the catalog, for zero
    noise and for every other fixed noise (hence also in the mean over
    the noise); so is the value stored after rounding. *)
Theorem dose_trend_monotone (base_effectiveness : Z) (resistance_factor : Q)
    (c1 c2 : Z) (noise : R) :
  (0 < resistance_factor)%Q ->
  c1 ∈ concentrations -> c2 ∈ concentrations -> c1 <= c2 ->
  (inhibition_zone base_effectiveness resistance_factor c1 noise <=
   inhibition_zone base_effectiveness resistance_factor c2 noise)%R /\
  (round2 (inhibition_zone base_effectiveness resistance_factor c1 noise) <=
   round2 (inhibition_zone base_effectiveness resistance_factor c2 noise))%R.
Proof.
  intros Hrf H1 H2 Hle.
  pose proof concentrations_from_reference as HC. rewrite Forall_forall in HC.
  pose proof (HC c1 H1) as Hc1.
  pose proof (conc_effect_mono c1 c2 ltac:(lia) Hle) as Heff.
  apply Q2R_pos in Hrf.
  assert (inhibition_zone base_effectiveness resistance_factor c1 noise <=
          inhibition_zone base_effectiveness resistance_factor c2 noise)%R as Hz.
  { unfold inhibition_zone. apply py_max_0_mono. nra. }
  split; [exact Hz|now apply round2_mono].
Qed.

(** C6 at garlic (base 15) on E. coli (factor 1.0) with zero noise,
    from 10 to 25 mg/mL. *)
Lemma dose_trend_monotone_witness :
  (0 < 1.0)%Q /\ 10 ∈ concentrations /\ 25 ∈ concentrations /\ 10 <= 25 /\
  (inhibition_zone 15 1.0 10 0 <= inhibition_zone 15 1.0 25 0)%R /\
  (round2 (inhibition_zone 15 1.0 10 0) <= round2 (inhibition_zone 15 1.0 25 0))%R.
Proof.
  assert (10 ∈ concentrations) as H10
    by (apply list_elem_of_In; simpl; auto).
  assert (25 ∈ concentrations) as H25
    by (apply list_elem_of_In; simpl; auto).
  split; [reflexivity|]. split; [exact H10|]. split; [exact H25|].
  split; [lia|].
  apply (dose_trend_monotone 15 1.0 10 25 0); [reflexivity|exact H10|exact H25|lia].
Defined.

(** ** Effects and two-run properties of the whole function *)

Section Runs.
Context `{Ambient}.

(** A run of the function body is a run of the loop nest followed by
    the export, which reads none of the three sources. *)
Lemma generate_with_inv plants bacts concs (w : world) df w' :
  generate_with plants bacts concs w = Ok (df, w') ->
  exists w0,
    generate_rows plants bacts concs [] w = Ok (df, w0) /\ same_sources w0 w'.
Proof.
  unfold generate_with, bind.
  destruct (generate_rows plants bacts concs [] w) as [[data w0]|e];
    [|discriminate].
  unfold export, bind, to_csv, print, ret. intros [= <- <-].
  exists w0. split; [reflexivity|]. unfold same_sources. auto.
Qed.

Lemma same_sources_trans (w1 w2 w3 : world) :
  same_sources w1 w2 -> same_sources w2 w3 -> same_sources w1 w3.
Proof. unfold same_sources. intros (-> & -> & ->) (-> & -> & ->). auto. Qed.

Lemma same_sources_sym (w1 w2 : world) : same_sources w1 w2 -> same_sources w2 w1.
Proof. unfold same_sources. intros (-> & -> & ->). auto. Qed.

Lemma generate_deterministic (w1 w2 : world) df1 w1' df2 w2' :
  same_sources w1 w2 ->
  generate_antibacterial_data w1 = Ok (df1, w1') ->
  generate_antibacterial_data w2 = Ok (df2, w2') ->
  df1 = df2 /\ same_sources w1' w2'.
Proof.
  intros Hw H1 H2.
  apply generate_with_inv in H1 as (v1 & H1 & E1).
  apply generate_with_inv in H2 as (v2 & H2 & E2).
  destruct (generate_rows_deterministic _ _ _ _ _ _ _ _ _ _ Hw H1 H2) as [-> Hv].
  split; [reflexivity|].
  eapply same_sources_trans; [apply same_sources_sym, E1|].
  eapply same_sources_trans; eassumption.
Qed.

Lemma generate_same_seed (w1 w2 : world) df1 w1' df2 w2' :
  same_seed w1 w2 ->
  generate_antibacterial_data w1 = Ok (df1, w1') ->
  generate_antibacterial_data w2 = Ok (df2, w2') ->
  Forall2 same_measurement df1 df2.
Proof.
  intros Hw H1 H2.
  apply generate_with_inv in H1 as (v1 & H1 & _).
  apply generate_with_inv in H2 as (v2 & H2 & _).
  now destruct (generate_rows_same_seed _ _ _ _ _ _ _ _ _ _ Hw H1 H2).
Qed.

End Runs.

(** C7, as stated, fails.  Started with no file, the function leaves the
    file [antibacterial_data.csv] holding the table, and it has printed
    two lines. *)
Lemma generator_writes_file_counterexample :
  exists df w',
    @generate_antibacterial_data (stub_ambient 0 1) (stub_world 0 1 0) = Ok (df, w') /\
    files (stub_world 0 1 0) !! "antibacterial_data.csv" = None /\
    files w' !! "antibacterial_data.csv" = Some df /\
    stdout (stub_world 0 1 0) = [] /\
    stdout w' = [ "Generated 1200 data points";
                  "Data saved to 'antibacterial_data.csv'" ].
Proof.
  destruct (generate_spec (stub_world 0 1 0)) as (df & w' & Hrun & _ & Hfiles & Hout).
  exists df, w'. split; [assumption|]. split; [reflexivity|].
  split; [rewrite Hfiles; apply lookup_insert_eq|].
  split; [reflexivity|]. rewrite Hout. reflexivity.
Qed.

(** C7, amended.  The record set is a function of the states of the two
    random generators and of the clock alone: it is the same whatever the
    files hold and whatever has been printed, so computing it reads
    nothing else.  The invocation does have effects besides returning
    the records: it writes them to [antibacterial_data.csv], replacing
    what that file held, and prints two lines. *)
Theorem generator_effects `{Ambient} (w : world)
    (fs : gmap string (list row)) (out : list string) :
  exists df w1 w2,
    generate_antibacterial_data w = Ok (df, w1) /\
    generate_antibacterial_data (with_sinks w fs out) = Ok (df, w2) /\
    files w1 = <["antibacterial_data.csv" := df]> (files w) /\
    stdout w1 = (stdout w ++ [ "Generated 1200 data points";
                               "Data saved to 'antibacterial_data.csv'" ])%list.
Proof.
  destruct (generate_spec w) as (df & w1 & Hrun1 & _ & Hfiles & Hout).
  destruct (generate_spec (with_sinks w fs out)) as (df2 & w2 & Hrun2 & _).
  assert (same_sources w (with_sinks w fs out)) as Hw
    by (unfold same_sources, with_sinks; auto).
  destruct (generate_deterministic _ _ _ _ _ _ Hw Hrun1 Hrun2) as [<- _].
  exists df, w1, w2. auto.
Qed.

(** The catalogs and tables written into the function have none of the
    defects of [valid_configuration]. *)
Lemma compiled_in_configuration_valid :
  valid_configuration plant_extracts bacteria concentrations.
Proof.
  unfold valid_configuration. repeat split; try discriminate.
  - eapply Forall_impl; [apply concentrations_from_reference|].
    intros c Hc. simpl in Hc. lia.
  - eapply Forall_impl; [apply plant_lookups|].
    intros p (e & He & Hv & _). eauto.
  - eapply Forall_impl; [apply bacteria_lookups|].
    intros b (rf & -> & _). eauto.
Qed.

(** Under the frozen clock, two runs of the loop nest whose clocks differ
    by one microsecond date every record one microsecond apart. *)
Lemma frozen_clock_shift noise days plants bacts concs
    (w1 w2 : @world (stub_ambient noise days)) df1 w1' df2 w2' :
  clock w2 = clock w1 + 1 ->
  generate_rows plants bacts concs [] w1 = Ok (df1, w1') ->
  generate_rows plants bacts concs [] w2 = Ok (df2, w2') ->
  Forall2 (fun r1 r2 => Test_Date r2 = Test_Date r1 + 1) df1 df2.
Proof.
  rewrite !generate_rows_flat. intros Hclock H1 H2.
  refine (proj1 (for_each_related
            (Forall2 (fun r1 r2 => Test_Date r2 = Test_Date r1 + 1))
            (fun v1 v2 : @world (stub_ambient noise days) => clock v2 = clock v1 + 1)
            _ _ _ _ _ _ _ _ _ _ _ _ Hclock H1 H2)); [|constructor].
  intros [[[p b] c] k] s1 s2 v1 v2 s1' v1' s2' v2' Hs Hc R1 R2.
  unfold measure_cell in R1, R2.
  apply measure_inv in R1 as (e & rf & He & Hrf & -> & ->).
  apply measure_inv in R2 as (e' & rf' & He' & Hrf' & -> & ->).
  split.
  - apply Forall2_app; [assumption|]. constructor; [|constructor].
    unfold record_of. cbn [Test_Date].
    change ((datetime_now (clock v2)).1) with (clock v2).
    change ((datetime_now (clock v1)).1) with (clock v1).
    change ((random_randint 1 30 (py_rng v2)).1) with days.
    change ((random_randint 1 30 (py_rng v1)).1) with days.
    rewrite Hc. lia.
  - unfold after_measure. cbn [clock].
    change ((datetime_now (clock v2)).2) with (clock v2).
    change ((datetime_now (clock v1)).2) with (clock v1).
    exact Hc.
Qed.

(** C9, as stated, fails.  Two runs from the same states of both random
    generators, one with the clock at instant 0 and one a microsecond
    later, return different record sets: the dates differ. *)
Lemma same_seed_other_clock_counterexample :
  exists df1 w1' df2 w2',
    same_seed (stub_world 0 1 0) (stub_world 0 1 1) /\
    generate_antibacterial_data (stub_world 0 1 0) = Ok (df1, w1') /\
    generate_antibacterial_data (stub_world 0 1 1) = Ok (df2, w2') /\
    df1 <> df2.
Proof.
  destruct (generate_spec (stub_world 0 1 0)) as (df1 & w1' & Hrun1 & Hall & _).
  destruct (generate_spec (stub_world 0 1 1)) as (df2 & w2' & Hrun2 & _).
  exists df1, w1', df2, w2'.
  split; [split; reflexivity|]. split; [assumption|]. split; [assumption|].
  intros <-.
  pose proof Hrun1 as G1. pose proof Hrun2 as G2.
  apply generate_with_inv in G1 as (v1 & G1 & _).
  apply generate_with_inv in G2 as (v2 & G2 & _).
  assert (clock (stub_world 0 1 1) = clock (stub_world 0 1 0) + 1) as Hclock
    by reflexivity.
  pose proof (frozen_clock_shift _ _ _ _ _ _ _ _ _ _ _ Hclock G1 G2) as Hshift.
  destruct catalog_first_cell as [cells Hcells]. rewrite Hcells in Hall.
  inversion Hall as [|c0 r cells' rest _ _]; subst.
  inversion Hshift as [|r1 r2 l1 l2 Hr _]; subst. lia.
Qed.

(** C9, amended.  Two invocations from the same states of the two random
    generators return record sets that agree, record by record, on every
    field except [Test_Date]; when the clock is in the same state as
    well, the two record sets are identical. *)
Theorem reproducible_given_seed `{Ambient} (w1 w2 : world) :
  same_seed w1 w2 ->
  exists df1 w1' df2 w2',
    generate_antibacterial_data w1 = Ok (df1, w1') /\
    generate_antibacterial_data w2 = Ok (df2, w2') /\
    Forall2 same_measurement df1 df2 /\
    (clock w1 = clock w2 -> df1 = df2).
Proof.
  intros Hseed.
  destruct (generate_spec w1) as (df1 & w1' & Hrun1 & _).
  destruct (generate_spec w2) as (df2 & w2' & Hrun2 & _).
  exists df1, w1', df2, w2'. repeat split; try assumption.
  - exact (generate_same_seed _ _ _ _ _ _ Hseed Hrun1 Hrun2).
  - intros Hclock. destruct Hseed as [Hn Hp].
    assert (same_sources w1 w2) as Hw by (unfold same_sources; auto).
    now destruct (generate_deterministic _ _ _ _ _ _ Hw Hrun1 Hrun2).
Qed.

(** C9 at two worlds with the same generator states whose clocks read
    instants 0 and 1. *)
Lemma reproducible_given_seed_witness :
  same_seed (stub_world 0 1 0) (stub_world 0 1 1) /\
  exists df1 w1' df2 w2',
    generate_antibacterial_data (stub_world 0 1 0) = Ok (df1, w1') /\
    generate_antibacterial_data (stub_world 0 1 1) = Ok (df2, w2') /\
    Forall2 same_measurement df1 df2 /\
    (clock (stub_world 0 1 0) = clock (stub_world 0 1 1) -> df1 = df2).
Proof.
  assert (same_seed (stub_world 0 1 0) (stub_world 0 1 1)) as Hseed
    by (split; reflexivity).
  split; [exact Hseed|].
  exact (reproducible_given_seed (stub_world 0 1 0) (stub_world 0 1 1) Hseed).
Defined.

(** ** The draws behind each record *)

Section Trace.
Context `{Ambient}.

Lemma py_skip_S n (q : py_state) :
  py_skip (S n) q = py_skip n ((random_randint 1 30 q).2).
Proof.
  unfold py_skip.
  apply (Nat.iter_succ_r n (fun q => (random_randint 1 30 q).2)).
Qed.

Lemma clock_skip_S n (c : clock_state) :
  clock_skip (S n) c = clock_skip n ((datetime_now c).2).
Proof.
  unfold clock_skip.
  apply (Nat.iter_succ_r n (fun c => (datetime_now c).2)).
Qed.

Lemma scale_of_lookup p b c k e :
  plant_effectiveness !! p = Some e -> scale_of (p, b, c, k) = variance e.
Proof. intros He. unfold scale_of. cbn [fst snd]. now rewrite He. Qed.

(** A run of the loop over [cells] that returns has drawn once from each
    source per iteration, and iteration [n] has used the draws that
    follow the first [n]. *)
Lemma measure_cells_trace cells :
  forall data (w : world) df w',
    for_each cells measure_cell data w = Ok (df, w') ->
    exists rows,
      df = (data ++ rows)%list /\ length rows = length cells /\
      np_rng w' = np_skip (scale_of <$> cells) (np_rng w) /\
      py_rng w' = py_skip (length cells) (py_rng w) /\
      clock w' = clock_skip (length cells) (clock w) /\
      forall n cl r, cells !! n = Some cl -> rows !! n = Some r ->
        exists e rf,
          plant_effectiveness !! cl.1.1.1 = Some e /\
          bacterial_resistance !! cl.1.1.2 = Some rf /\
          r = record_of cl e rf
                (np_random_normal 0 (IZR (variance e))
                   (np_skip (scale_of <$> take n cells) (np_rng w))).1
                (datetime_now (clock_skip n (clock w))).1
                (random_randint 1 30 (py_skip n (py_rng w))).1.
Proof.
  induction cells as [|cl cells IH]; intros data w df w' Hrun.
  - injection Hrun as <- <-. exists []. rewrite app_nil_r.
    repeat split; try reflexivity. intros n cl r Hcl. discriminate.
  - simpl in Hrun. unfold bind in Hrun.
    destruct (measure_cell cl data w) as [[data1 w1]|e] eqn:Hfirst; [|discriminate].
    destruct cl as [[[p b] c] k]. unfold measure_cell in Hfirst.
    apply measure_inv in Hfirst as (e & rf & He & Hrf & -> & ->).
    apply IH in Hrun as (rows & -> & Hlen & Hnp & Hpy & Hclock & Hrows).
    eexists (_ :: rows). split; [now rewrite <- app_assoc|].
    split; [simpl; now rewrite Hlen|].
    unfold after_measure in Hnp, Hpy, Hclock, Hrows.
    cbn [np_rng py_rng clock] in Hnp, Hpy, Hclock, Hrows.
    split; [|split; [|split]].
    + rewrite Hnp, fmap_cons. unfold np_skip at 2. cbn [fold_left].
      now rewrite (scale_of_lookup p b c k e He).
    + rewrite Hpy. cbn [length]. now rewrite py_skip_S.
    + rewrite Hclock. cbn [length]. now rewrite clock_skip_S.
    + intros [|n] cl r Hcl Hr.
      * injection Hcl as <-. injection Hr as <-. exists e, rf. auto.
      * cbn in Hcl, Hr. destruct (Hrows n cl r Hcl Hr) as (e' & rf' & He' & Hrf' & ->).
        exists e', rf'. split; [assumption|]. split; [assumption|].
        rewrite py_skip_S, clock_skip_S. cbn [take]. rewrite fmap_cons.
        unfold np_skip at 2. cbn [fold_left].
        now rewrite (scale_of_lookup p b c k e He).
Qed.

End Trace.

Lemma Test_Date_record_of cl e rf noise t days :
  Test_Date (record_of cl e rf noise t days) = t - timedelta_days days.
Proof. destruct cl as [[[p b] c] k]. reflexivity. Qed.

Lemma Inhibition_Zone_mm_record_of cl e rf noise t days :
  Inhibition_Zone_mm (record_of cl e rf noise t days) =
  round2 (inhibition_zone (base e) rf cl.1.2 noise).
Proof. destruct cl as [[[p b] c] k]. reflexivity. Qed.

Lemma Activity_Level_record_of cl e rf noise t days :
  Activity_Level (record_of cl e rf noise t days) =
  activity_level (inhibition_zone (base e) rf cl.1.2 noise).
Proof. destruct cl as [[[p b] c] k]. reflexivity. Qed.

(** The function body over any catalogs, when it returns. *)
Lemma generate_with_trace `{Ambient} plants bacts concs (w : world) df w' :
  generate_with plants bacts concs w = Ok (df, w') ->
  length df = length (loop_cells plants bacts concs) /\
  np_rng w' = np_skip (scale_of <$> loop_cells plants bacts concs) (np_rng w) /\
  py_rng w' = py_skip (length (loop_cells plants bacts concs)) (py_rng w) /\
  clock w' = clock_skip (length (loop_cells plants bacts concs)) (clock w) /\
  forall n cl r,
    loop_cells plants bacts concs !! n = Some cl -> df !! n = Some r ->
    exists e rf,
      plant_effectiveness !! cl.1.1.1 = Some e /\
      bacterial_resistance !! cl.1.1.2 = Some rf /\
      r = record_of cl e rf
            (np_random_normal 0 (IZR (variance e))
               (np_skip (scale_of <$> take n (loop_cells plants bacts concs))
                  (np_rng w))).1
            (datetime_now (clock_skip n (clock w))).1
            (random_randint 1 30 (py_skip n (py_rng w))).1.
Proof.
  intros Hrun. apply generate_with_inv in Hrun as (w0 & Hrun & Hn & Hp & Hc).
  rewrite generate_rows_flat in Hrun.
  apply measure_cells_trace in Hrun as (rows & -> & Hlen & Hnp & Hpy & Hclock & Hrows).
  rewrite <- Hn, <- Hp, <- Hc. simpl. auto.
Qed.

(** The records of a run of the function, iteration by iteration: the
    record that iteration [n] appends is at position [n], and it is made
    of the table entries of the iteration's extract and bacterium and of
    the draws that follow the first [n] of each source. *)
Lemma generate_records `{Ambient} (w : world) :
  exists df w',
    generate_antibacterial_data w = Ok (df, w') /\
    length df = 1200%nat /\
    forall n cl,
      loop_cells plant_extracts bacteria concentrations !! n = Some cl ->
      exists r e rf,
        df !! n = Some r /\
        plant_effectiveness !! cl.1.1.1 = Some e /\
        bacterial_resistance !! cl.1.1.2 = Some rf /\
        0 <= base e /\ (0 < rf)%Q /\ 10 <= cl.1.2 /\
        r = record_of cl e rf
              (np_random_normal 0 (IZR (variance e))
                 (np_skip (scales_before n) (np_rng w))).1
              (datetime_now (clock_skip n (clock w))).1
              (random_randint 1 30 (py_skip n (py_rng w))).1.
Proof.
  destruct (generate_spec w) as (df & w' & Hrun & _).
  exists df, w'. split; [assumption|].
  apply generate_with_trace in Hrun as (Hlen & _ & _ & _ & Hrows).
  split; [rewrite Hlen, length_loop_cells; reflexivity|].
  intros n cl Hcl.
  destruct (lookup_lt_is_Some_2 df n) as [r Hr].
  { rewrite Hlen. eapply lookup_lt_Some. eassumption. }
  destruct (Hrows n cl r Hcl Hr) as (e & rf & He & Hrf & Hrec).
  exists r, e, rf. split; [assumption|].
  split; [assumption|]. split; [assumption|].
  apply list_elem_of_lookup_2 in Hcl.
  destruct cl as [[[p b] c] k]. cbn [fst snd] in He, Hrf |- *.
  apply in_loop_cells in Hcl as (Hp & Hb & Hc & _).
  pose proof plant_lookups as HP. rewrite Forall_forall in HP.
  destruct (HP p Hp) as (e' & He' & _ & Hbase).
  rewrite He in He'. injection He' as <-.
  pose proof bacteria_lookups as HB. rewrite Forall_forall in HB.
  destruct (HB b Hb) as (rf' & Hrf' & Hpos).
  rewrite Hrf in Hrf'. injection Hrf' as <-.
  pose proof concentrations_from_reference as HC. rewrite Forall_forall in HC.
  split; [assumption|]. split; [assumption|]. split; [exact (HC c Hc)|].
  exact Hrec.
Qed.

(** The same, record by record. *)
Lemma generate_records_at `{Ambient} (w : world) :
  exists df w',
    generate_antibacterial_data w = Ok (df, w') /\
    forall n r, df !! n = Some r ->
      exists cl e rf,
        loop_cells plant_extracts bacteria concentrations !! n = Some cl /\
        plant_effectiveness !! cl.1.1.1 = Some e /\
        bacterial_resistance !! cl.1.1.2 = Some rf /\
        r = record_of cl e rf
              (np_random_normal 0 (IZR (variance e))
                 (np_skip (scales_before n) (np_rng w))).1
              (datetime_now (clock_skip n (clock w))).1
              (random_randint 1 30 (py_skip n (py_rng w))).1.
Proof.
  destruct (generate_records w) as (df & w' & Hrun & Hlen & Hrows).
  exists df, w'. split; [assumption|].
  intros n r Hr.
  destruct (lookup_lt_is_Some_2 (loop_cells plant_extracts bacteria concentrations) n)
    as [cl Hcl].
  { rewrite length_loop_cells.
    change (length plant_extracts * length bacteria * length concentrations * 3)%nat
      with 1200%nat.
    rewrite <- Hlen. eapply lookup_lt_Some. eassumption. }
  destruct (Hrows n cl Hcl) as (r' & e & rf & Hr' & He & Hrf & _ & _ & _ & Hrec).
  rewrite Hr in Hr'. injection Hr' as <-.
  exists cl, e, rf. auto.
Qed.

Lemma row_cell_record_of cl e rf noise t days :
  row_cell (record_of cl e rf noise t days) = record_cell cl.
Proof. destruct cl as [[[p b] c] k]. reflexivity. Qed.

(** The formula of lines 78-81 written out, with the noise added and the
    floor applied. *)
Lemma inhibition_zone_formula b rf c noise :
  inhibition_zone b rf c noise =
  py_max 0 ((IZR b + log10 (IZR c / 10) * 3) * Q2R rf + noise)%R.
Proof. reflexivity. Qed.

Lemma pre_noise_nonneg b rf c :
  0 <= b -> (0 < rf)%Q -> 10 <= c ->
  (0 <= (IZR b + log10 (IZR c / 10) * 3) * Q2R rf)%R.
Proof.
  intros Hb Hrf Hc. apply Q2R_pos in Hrf. apply IZR_le in Hb.
  pose proof (conc_effect_nonneg c Hc) as Heff. unfold conc_effect in Heff.
  nra.
Qed.

(** C1, amended.  The record at position [n] of a run has the value
    [zone]: the formula of its own iteration at the [n]-th draw of the
    run, floored at zero.  The stored tier is the threshold partition
    applied to [zone], the value before rounding, and the stored
    [Inhibition_Zone_mm] is the rounding of [zone]; so the tier is the
    partition of the stored value whenever [zone] is not in the last
    hundredth below 10, 15 or 20.  The partition sends 20.00 to High,
    19.99 to Moderate and 9.99 to None. *)
Theorem tier_of_unrounded_value `{Ambient} (w : world) :
  (exists df w',
     generate_antibacterial_data w = Ok (df, w') /\
     forall n r, df !! n = Some r ->
       exists cl e rf,
         loop_cells plant_extracts bacteria concentrations !! n = Some cl /\
         plant_effectiveness !! cl.1.1.1 = Some e /\
         bacterial_resistance !! cl.1.1.2 = Some rf /\
         row_cell r = record_cell cl /\
         let zone :=
           inhibition_zone (base e) rf cl.1.2
             (np_random_normal 0 (IZR (variance e))
                (np_skip (scales_before n) (np_rng w))).1 in
         Inhibition_Zone_mm r = round2 zone /\
         Activity_Level r = activity_level zone /\
         (~ ((10 - 1 / 100 <= zone < 10)%R \/
             (15 - 1 / 100 <= zone < 15)%R \/
             (20 - 1 / 100 <= zone < 20)%R) ->
          Activity_Level r = activity_level (Inhibition_Zone_mm r))) /\
  activity_level 20 = "High" /\
  activity_level (1999 / 100) = "Moderate" /\
  activity_level (999 / 100) = "None".
Proof.
  split.
  - destruct (generate_records_at w) as (df & w' & Hrun & Hrows).
    exists df, w'. split; [assumption|].
    intros n r Hr.
    destruct (Hrows n r Hr) as (cl & e & rf & Hcl & He & Hrf & ->).
    exists cl, e, rf. split; [assumption|].
    split; [assumption|]. split; [assumption|].
    split; [apply row_cell_record_of|].
    rewrite Inhibition_Zone_mm_record_of, Activity_Level_record_of.
    cbv zeta. split; [reflexivity|]. split; [reflexivity|].
    intros Hfar. symmetry. apply activity_level_round2.
    unfold rounds_across. intros Hnear. apply Hfar. lra.
  - split; [apply activity_level_High; lra|].
    split; [apply activity_level_Moderate; lra|apply activity_level_None; lra].
Qed.

(** C4.  The concentration effect is exactly 0 at the reference
    concentration 10.  For every combination and replicate the loop
    visits, the value before the noise is added is [(base +
    log10(concentration / 10) * 3) * resistance_factor] with the table
    entries of the combination, it is never negative, and it is
    [base * resistance_factor] at concentration 10: the record the
    iteration appends stores the rounding of that value plus the
    iteration's own draw of the noise, floored at zero, and its tier is
    the tier of that sum.  In a run whose noise is stubbed to 0 every
    record stores the rounding of the value of the formula itself. *)
Theorem pre_noise_value :
  conc_effect 10 = 0%R /\
  (forall (A : Ambient) (w : world),
     exists df w',
       generate_antibacterial_data w = Ok (df, w') /\
       forall n cl,
         loop_cells plant_extracts bacteria concentrations !! n = Some cl ->
         exists r e resistance_factor,
           df !! n = Some r /\
           row_cell r = record_cell cl /\
           plant_effectiveness !! cl.1.1.1 = Some e /\
           bacterial_resistance !! cl.1.1.2 = Some resistance_factor /\
           let pre_noise :=
             ((IZR (base e) + log10 (IZR cl.1.2 / 10) * 3)
              * Q2R resistance_factor)%R in
           let noise :=
             (np_random_normal 0 (IZR (variance e))
                (np_skip (scales_before n) (np_rng w))).1 in
           (0 <= pre_noise)%R /\
           (cl.1.2 = 10 -> pre_noise = (IZR (base e) * Q2R resistance_factor)%R) /\
           Inhibition_Zone_mm r = round2 (py_max 0 (pre_noise + noise)) /\
           Activity_Level r = activity_level (py_max 0 (pre_noise + noise))) /\
  (forall days t,
     exists df w',
       @generate_antibacterial_data (stub_ambient 0 days) (stub_world 0 days t)
         = Ok (df, w') /\
       forall n cl,
         loop_cells plant_extracts bacteria concentrations !! n = Some cl ->
         exists r e resistance_factor,
           df !! n = Some r /\
           row_cell r = record_cell cl /\
           plant_effectiveness !! cl.1.1.1 = Some e /\
           bacterial_resistance !! cl.1.1.2 = Some resistance_factor /\
           Inhibition_Zone_mm r =
             round2 ((IZR (base e) + log10 (IZR cl.1.2 / 10) * 3)
                     * Q2R resistance_factor)%R /\
           (cl.1.2 = 10 ->
            Inhibition_Zone_mm r = round2 (IZR (base e) * Q2R resistance_factor)%R)).
Proof.
  assert (forall b rf c, c = 10 ->
            ((IZR b + log10 (IZR c / 10) * 3) * Q2R rf)%R = (IZR b * Q2R rf)%R)
    as Href.
  { intros b rf c ->. replace (IZR 10 / 10)%R with 1%R by lra.
    rewrite log10_1. lra. }
  split; [apply conc_effect_reference|]. split.
  - intros A w.
    destruct (generate_records w) as (df & w' & Hrun & _ & Hrows).
    exists df, w'. split; [assumption|].
    intros n cl Hcl.
    destruct (Hrows n cl Hcl)
      as (r & e & rf & Hr & He & Hrf & Hbase & Hpos & Hc & ->).
    eexists _, e, rf. split; [exact Hr|].
    split; [apply row_cell_record_of|].
    split; [assumption|]. split; [assumption|].
    rewrite Inhibition_Zone_mm_record_of, Activity_Level_record_of.
    rewrite inhibition_zone_formula. cbv zeta.
    split; [now apply pre_noise_nonneg|].
    split; [apply Href|]. split; reflexivity.
  - intros days t.
    destruct (generate_records (stub_world 0 days t)) as (df & w' & Hrun & _ & Hrows).
    exists df, w'. split; [assumption|].
    intros n cl Hcl.
    destruct (Hrows n cl Hcl)
      as (r & e & rf & Hr & He & Hrf & Hbase & Hpos & Hc & ->).
    eexists _, e, rf. split; [exact Hr|].
    split; [apply row_cell_record_of|].
    split; [assumption|]. split; [assumption|].
    rewrite Inhibition_Zone_mm_record_of, inhibition_zone_formula.
    cbn [np_random_normal stub_ambient constant_normal fst].
    rewrite Rplus_0_r, py_max_0_of_nonneg by now apply pre_noise_nonneg.
    split; [reflexivity|]. intros H10. now rewrite Href.
Qed.

(** * Further properties of the generator *)

(** X1.  A run draws exactly once from each source per record: after it,
    Python's generator and the clock have advanced by 1200 calls and
    numpy's generator by 1200 normal draws whose scales are the variances
    of the records' extracts; and the record at position [n] is made of
    the draws that follow the first [n] of each source. *)
Theorem one_draw_per_record `{Ambient} (w : world) :
  exists df w',
    generate_antibacterial_data w = Ok (df, w') /\
    np_rng w' = np_skip (scales_before 1200) (np_rng w) /\
    py_rng w' = py_skip 1200 (py_rng w) /\
    clock w' = clock_skip 1200 (clock w) /\
    forall n r, df !! n = Some r ->
      exists cl e rf,
        loop_cells plant_extracts bacteria concentrations !! n = Some cl /\
        plant_effectiveness !! cl.1.1.1 = Some e /\
        bacterial_resistance !! cl.1.1.2 = Some rf /\
        r = record_of cl e rf
              (np_random_normal 0 (IZR (variance e))
                 (np_skip (scales_before n) (np_rng w))).1
              (datetime_now (clock_skip n (clock w))).1
              (random_randint 1 30 (py_skip n (py_rng w))).1.
Proof.
  destruct (generate_spec w) as (df & w' & Hrun & _).
  exists df, w'. split; [assumption|].
  apply generate_with_trace in Hrun as (Hlen & Hnp & Hpy & Hclock & Hrows).
  rewrite length_loop_cells in Hlen, Hpy, Hclock.
  change (length plant_extracts * length bacteria * length concentrations * 3)%nat
    with 1200%nat in Hlen, Hpy, Hclock.
  split.
  { rewrite Hnp. unfold scales_before. rewrite take_ge; [reflexivity|].
    rewrite length_loop_cells. apply Nat.eq_le_incl. reflexivity. }
  split; [assumption|]. split; [assumption|].
  intros n r Hr.
  assert (n < 1200)%nat as Hn by (rewrite <- Hlen; eapply lookup_lt_Some; eassumption).
  destruct (lookup_lt_is_Some_2 (loop_cells plant_extracts bacteria concentrations) n)
    as [cl Hcl].
  { rewrite length_loop_cells. exact Hn. }
  destruct (Hrows n cl r Hcl Hr) as (e & rf & He & Hrf & ->).
  exists cl, e, rf. auto.
Qed.

(** X2.  When [random.randint(1, 30)] returns a number from 1 to 30, the
    date of the record at position [n] lies between 30 days and 1 day
    before the instant the clock read at its [n]-th call of the run. *)
Theorem test_date_window `{Ambient} (w : world) :
  (forall q, 1 <= (random_randint 1 30 q).1 <= 30) ->
  exists df w',
    generate_antibacterial_data w = Ok (df, w') /\
    forall n r, df !! n = Some r ->
      (datetime_now (clock_skip n (clock w))).1 - timedelta_days 30
        <= Test_Date r <=
      (datetime_now (clock_skip n (clock w))).1 - timedelta_days 1.
Proof.
  intros Hrange.
  destruct (generate_spec w) as (df & w' & Hrun & _).
  exists df, w'. split; [assumption|].
  apply generate_with_trace in Hrun as (Hlen & _ & _ & _ & Hrows).
  intros n r Hr.
  destruct (lookup_lt_is_Some_2 (loop_cells plant_extracts bacteria concentrations) n)
    as [cl Hcl].
  { rewrite <- Hlen. eapply lookup_lt_Some. eassumption. }
  destruct (Hrows n cl r Hcl Hr) as (e & rf & _ & _ & ->).
  rewrite Test_Date_record_of.
  specialize (Hrange (py_skip n (py_rng w))). unfold timedelta_days. lia.
Qed.

(** X2 at the stand-in sources whose [randint] always returns 7. *)
Lemma test_date_window_witness :
  (forall q, 1 <= (@random_randint (stub_ambient 0 7) 1 30 q).1 <= 30) /\
  exists df w',
    generate_antibacterial_data (stub_world 0 7 0) = Ok (df, w') /\
    forall n r, df !! n = Some r ->
      (datetime_now (clock_skip n (clock (stub_world 0 7 0)))).1 - timedelta_days 30
        <= Test_Date r <=
      (datetime_now (clock_skip n (clock (stub_world 0 7 0)))).1 - timedelta_days 1.
Proof.
  assert (forall q, 1 <= (@random_randint (stub_ambient 0 7) 1 30 q).1 <= 30) as Hrange.
  { intros q. cbn. lia. }
  split; [exact Hrange|].
  exact (test_date_window (stub_world 0 7 0) Hrange).
Defined.

(** ** The stored value and the tier *)

Lemma round2_hundredths x : (0 <= x)%R ->
  exists k : Z, 0 <= k /\ round2 x = (IZR k / 100)%R.
Proof.
  intros Hx. exists (rint (x * 100)). split; [|reflexivity].
  apply rint_ge. lra.
Qed.

Lemma round2_threshold (t : Z) : round2 (IZR t) = IZR t.
Proof.
  unfold round2. rewrite <- mult_IZR, rint_IZR, mult_IZR. field.
Qed.

Lemma round2_le_threshold (t : Z) x : (x <= IZR t)%R -> (round2 x <= IZR t)%R.
Proof. intros Hx. rewrite <- (round2_threshold t). now apply round2_mono. Qed.

(** X3.  The record at position [n] stores a whole, non-negative number
    of hundredths of a millimetre, less than one hundredth away from the
    value its tier was computed from: the formula of its iteration at the
    [n]-th draw of the run, floored at zero. *)
Theorem stored_value_in_hundredths `{Ambient} (w : world) :
  exists df w',
    generate_antibacterial_data w = Ok (df, w') /\
    forall n r, df !! n = Some r ->
      exists cl e rf,
        loop_cells plant_extracts bacteria concentrations !! n = Some cl /\
        plant_effectiveness !! cl.1.1.1 = Some e /\
        bacterial_resistance !! cl.1.1.2 = Some rf /\
        let zone :=
          inhibition_zone (base e) rf cl.1.2
            (np_random_normal 0 (IZR (variance e))
               (np_skip (scales_before n) (np_rng w))).1 in
        Activity_Level r = activity_level zone /\
        (Rabs (Inhibition_Zone_mm r - zone) < 1 / 100)%R /\
        exists k : Z, 0 <= k /\ Inhibition_Zone_mm r = (IZR k / 100)%R.
Proof.
  destruct (generate_records_at w) as (df & w' & Hrun & Hrows).
  exists df, w'. split; [assumption|].
  intros n r Hr.
  destruct (Hrows n r Hr) as (cl & e & rf & Hcl & He & Hrf & ->).
  exists cl, e, rf. split; [assumption|].
  split; [assumption|]. split; [assumption|].
  rewrite Inhibition_Zone_mm_record_of, Activity_Level_record_of.
  cbv zeta. set (zone := inhibition_zone (base e) rf cl.1.2 _).
  split; [reflexivity|]. split.
  - pose proof (round2_close zone). apply Rabs_def1; lra.
  - apply round2_hundredths. apply py_max_0_nonneg.
Qed.

(** X4.  The tier of a record is one of High, Moderate, Low and None, and
    the stored value always lies in the closed range of its tier: at
    least 20 for High, from 15 to 20 for Moderate, from 10 to 15 for Low,
    from 0 to 10 for None (rounding can reach the upper end of a range,
    never leave it). *)
Theorem tier_names_and_ranges `{Ambient} (w : world) :
  exists df w',
    generate_antibacterial_data w = Ok (df, w') /\
    Forall (fun r =>
      (Activity_Level r = "High" /\ 20 <= Inhibition_Zone_mm r)%R \/
      (Activity_Level r = "Moderate" /\ 15 <= Inhibition_Zone_mm r <= 20)%R \/
      (Activity_Level r = "Low" /\ 10 <= Inhibition_Zone_mm r <= 15)%R \/
      (Activity_Level r = "None" /\ 0 <= Inhibition_Zone_mm r <= 10)%R) df.
Proof.
  destruct (generate_spec w) as (df & w' & Hrun & Hall & _).
  exists df, w'. split; [assumption|].
  apply (Forall2_Forall_r _ _ _ _ Hall).
  intros cl r _ (e & rf & g & t & d & _ & _ & ->).
  rewrite Inhibition_Zone_mm_record_of, Activity_Level_record_of.
  set (zone := inhibition_zone (base e) rf cl.1.2 _).
  assert (0 <= zone)%R as Hnn by apply py_max_0_nonneg.
  pose proof (round2_nonneg zone Hnn) as Hr0.
  pose proof (round2_ge_threshold 10 zone) as G10.
  pose proof (round2_ge_threshold 15 zone) as G15.
  pose proof (round2_ge_threshold 20 zone) as G20.
  pose proof (round2_le_threshold 10 zone) as L10.
  pose proof (round2_le_threshold 15 zone) as L15.
  pose proof (round2_le_threshold 20 zone) as L20.
  destruct (Rle_lt_dec 20 zone) as [H20|H20].
  { left. split; [now apply activity_level_High|apply G20; lra]. }
  destruct (Rle_lt_dec 15 zone) as [H15|H15].
  { right; left. split; [apply activity_level_Moderate; lra|].
    split; [apply G15; lra|apply L20; lra]. }
  destruct (Rle_lt_dec 10 zone) as [H10|H10].
  { right; right; left. split; [apply activity_level_Low; lra|].
    split; [apply G10; lra|apply L15; lra]. }
  right; right; right. split; [now apply activity_level_None|].
  split; [assumption|apply L10; lra].
Qed.

(** ** The design of the experiment *)

Lemma filter_none {A} (P : A -> Prop) `{!forall x, Decision (P x)} (l : list A) :
  (forall x, x ∈ l -> ~ P x) -> filter P l = [].
Proof.
  induction l as [|x l IH]; intros Hl; [reflexivity|].
  rewrite filter_cons. destruct (decide (P x)) as [Hx|_].
  - exfalso. apply (Hl x); [apply list_elem_of_here|assumption].
  - apply IH. intros y Hy. apply Hl. now apply list_elem_of_further.
Qed.

Lemma filter_all {A} (P : A -> Prop) `{!forall x, Decision (P x)} (l : list A) :
  (forall x, x ∈ l -> P x) -> filter P l = l.
Proof.
  induction l as [|x l IH]; intros Hl; [reflexivity|].
  rewrite filter_cons. destruct (decide (P x)) as [_|Hx].
  - f_equal. apply IH. intros y Hy. apply Hl. now apply list_elem_of_further.
  - exfalso. apply Hx, Hl, list_elem_of_here.
Qed.

Lemma filter_bind {A B} (P : B -> Prop) `{!forall y, Decision (P y)}
    (f : A -> list B) (l : list A) :
  filter P (l ≫= f) = l ≫= (fun x => filter P (f x)).
Proof.
  induction l as [|x l IH]; [reflexivity|].
  now rewrite !bind_cons, filter_app, IH.
Qed.

(** In a loop over a list without repetition, the iterations that
    satisfy a predicate true of no other entry's range are those of the
    one entry. *)
Lemma filter_bind_select {A B} (P : B -> Prop) `{!forall y, Decision (P y)}
    (f : A -> list B) (l : list A) (a : A) :
  NoDup l -> a ∈ l ->
  (forall x y, x ≠ a -> y ∈ f x -> ~ P y) ->
  filter P (l ≫= f) = filter P (f a).
Proof.
  intros Hnd Ha Hother. induction Hnd as [|x l Hx Hnd IH].
  - now apply elem_of_nil in Ha.
  - rewrite bind_cons, filter_app. apply elem_of_cons in Ha as [->|Ha].
    + rewrite (filter_none P (l ≫= f)); [apply app_nil_r|].
      intros y Hy. apply list_elem_of_bind in Hy as (z & Hy & Hz).
      apply (Hother z y); [|assumption]. intros ->. contradiction.
    + rewrite (filter_none P (f x)); [now apply IH|].
      intros y Hy. apply (Hother x y); [|assumption]. intros ->. contradiction.
Qed.

(** Filtering two lists related element by element with predicates that
    agree on related elements. *)
Lemma Forall2_filter_fmap {A B C} (R : A -> B -> Prop)
    (P : A -> Prop) `{!forall x, Decision (P x)}
    (Q : B -> Prop) `{!forall y, Decision (Q y)}
    (f : A -> C) (g : B -> C) l k :
  Forall2 R l k ->
  (forall x y, R x y -> (P x <-> Q y) /\ f x = g y) ->
  f <$> filter P l = g <$> filter Q k.
Proof.
  intros Hlk HR. induction Hlk as [|x y l k Hxy _ IH]; [reflexivity|].
  destruct (HR x y Hxy) as [Hiff Hfg]. rewrite !filter_cons.
  destruct (decide (P x)) as [Hx|Hx]; destruct (decide (Q y)) as [Hy|Hy].
  - now rewrite !fmap_cons, Hfg, IH.
  - exfalso. now apply Hy, Hiff.
  - exfalso. now apply Hx, Hiff.
  - exact IH.
Qed.

(** The iterations of one condition are its three replicates, in order. *)
Lemma loop_cells_condition plants bacts concs p b c :
  NoDup plants -> NoDup bacts -> NoDup concs ->
  p ∈ plants -> b ∈ bacts -> c ∈ concs ->
  filter (fun cl : cell => cl.1.1.1 = p /\ cl.1.1.2 = b /\ cl.1.2 = c)
         (loop_cells plants bacts concs) =
  (fun k => (p, b, c, k)) <$> range 3.
Proof.
  intros Np Nb Nc Hp Hb Hc. unfold loop_cells.
  rewrite (filter_bind_select _ _ plants p Np Hp).
  2:{ intros p' cl Hne Hcl.
      apply list_elem_of_bind in Hcl as (b' & Hcl & _).
      apply list_elem_of_bind in Hcl as (c' & Hcl & _).
      apply list_elem_of_fmap in Hcl as (k & -> & _). cbn. intros [Heq _]. auto. }
  rewrite (filter_bind_select _ _ bacts b Nb Hb).
  2:{ intros b' cl Hne Hcl.
      apply list_elem_of_bind in Hcl as (c' & Hcl & _).
      apply list_elem_of_fmap in Hcl as (k & -> & _). cbn. intros (_ & Heq & _). auto. }
  rewrite (filter_bind_select _ _ concs c Nc Hc).
  2:{ intros c' cl Hne Hcl.
      apply list_elem_of_fmap in Hcl as (k & -> & _). cbn. intros (_ & _ & Heq). auto. }
  apply filter_all. intros cl Hcl.
  apply list_elem_of_fmap in Hcl as (k & -> & _). cbn. auto.
Qed.

Lemma loop_cells_plant_count plants bacts concs p :
  NoDup plants -> p ∈ plants ->
  length (filter (fun cl : cell => cl.1.1.1 = p) (loop_cells plants bacts concs)) =
  (length bacts * length concs * 3)%nat.
Proof.
  intros Np Hp. unfold loop_cells.
  rewrite (filter_bind_select _ _ plants p Np Hp).
  2:{ intros p' cl Hne Hcl.
      apply list_elem_of_bind in Hcl as (b' & Hcl & _).
      apply list_elem_of_bind in Hcl as (c' & Hcl & _).
      apply list_elem_of_fmap in Hcl as (k & -> & _). cbn. auto. }
  rewrite filter_all.
  2:{ intros cl Hcl.
      apply list_elem_of_bind in Hcl as (b' & Hcl & _).
      apply list_elem_of_bind in Hcl as (c' & Hcl & _).
      apply list_elem_of_fmap in Hcl as (k & -> & _). reflexivity. }
  rewrite (length_bind_const _ (length concs * 3)); [lia|].
  intros b. now rewrite (length_bind_const _ 3).
Qed.

Lemma loop_cells_bacterium_count plants bacts concs b :
  NoDup bacts -> b ∈ bacts ->
  length (filter (fun cl : cell => cl.1.1.2 = b) (loop_cells plants bacts concs)) =
  (length plants * length concs * 3)%nat.
Proof.
  intros Nb Hb. unfold loop_cells. rewrite filter_bind.
  rewrite (length_bind_const _ (length concs * 3)); [lia|].
  intros p. rewrite (filter_bind_select _ _ bacts b Nb Hb).
  2:{ intros b' cl Hne Hcl.
      apply list_elem_of_bind in Hcl as (c' & Hcl & _).
      apply list_elem_of_fmap in Hcl as (k & -> & _). cbn. auto. }
  rewrite filter_all.
  2:{ intros cl Hcl.
      apply list_elem_of_bind in Hcl as (c' & Hcl & _).
      apply list_elem_of_fmap in Hcl as (k & -> & _). reflexivity. }
  now rewrite (length_bind_const _ 3).
Qed.

Lemma loop_cells_concentration_count plants bacts concs c :
  NoDup concs -> c ∈ concs ->
  length (filter (fun cl : cell => cl.1.2 = c) (loop_cells plants bacts concs)) =
  (length plants * length bacts * 3)%nat.
Proof.
  intros Nc Hc. unfold loop_cells. rewrite filter_bind.
  rewrite (length_bind_const _ (length bacts * 3)); [lia|].
  intros p. rewrite filter_bind.
  rewrite (length_bind_const _ 3); [lia|].
  intros b. rewrite (filter_bind_select _ _ concs c Nc Hc).
  2:{ intros c' cl Hne Hcl.
      apply list_elem_of_fmap in Hcl as (k & -> & _). cbn. auto. }
  rewrite filter_all; [reflexivity|].
  intros cl Hcl. apply list_elem_of_fmap in Hcl as (k & -> & _). reflexivity.
Qed.

Lemma catalogs_NoDup : NoDup plant_extracts /\ NoDup bacteria /\ NoDup concentrations.
Proof. repeat split; refine (bool_decide_unpack _ _); vm_compute; exact I. Qed.

(** X5.  The output is a balanced full factorial design: every
    (extract, bacterium, concentration) condition of the catalogs has
    exactly three records, its replicates 1, 2 and 3 in that order; every
    extract has 120 records, every bacterium 150 and every concentration
    240. *)
Theorem balanced_design `{Ambient} (w : world) :
  exists df w',
    generate_antibacterial_data w = Ok (df, w') /\
    Forall (fun p => Forall (fun b => Forall (fun c =>
      Replicate <$> filter (of_condition p b c) df = [1; 2; 3])
      concentrations) bacteria) plant_extracts /\
    Forall (fun p => length (filter (fun r => Plant_Extract r = p) df) = 120%nat)
      plant_extracts /\
    Forall (fun b => length (filter (fun r => Bacteria r = b) df) = 150%nat)
      bacteria /\
    Forall (fun c => length (filter (fun r => Concentration_mg_mL r = c) df) = 240%nat)
      concentrations.
Proof.
  destruct (generate_spec w) as (df & w' & Hrun & Hall & _).
  destruct catalogs_NoDup as (Np & Nb & Nc).
  exists df, w'. split; [assumption|].
  assert (forall cl r, generated_by cl r ->
            Plant_Extract r = cl.1.1.1 /\ Bacteria r = cl.1.1.2 /\
            Concentration_mg_mL r = cl.1.2 /\ Replicate r = cl.2 + 1) as Hfields.
  { intros [[[p b] c] k] r (e & rf & g & t & d & _ & _ & ->). now repeat split. }
  split; [|split; [|split]].
  - apply Forall_forall. intros p Hp. apply Forall_forall. intros b Hb.
    apply Forall_forall. intros c Hc.
    rewrite <- (Forall2_filter_fmap generated_by
                  (fun cl : cell => cl.1.1.1 = p /\ cl.1.1.2 = b /\ cl.1.2 = c)
                  (of_condition p b c) (fun cl : cell => cl.2 + 1) Replicate _ _ Hall).
    + rewrite (loop_cells_condition _ _ _ p b c Np Nb Nc Hp Hb Hc). reflexivity.
    + intros cl r Hgen. unfold of_condition.
      destruct (Hfields cl r Hgen) as (-> & -> & -> & ->). tauto.
  - apply Forall_forall. intros p Hp.
    rewrite <- (length_fmap (fun _ => tt)).
    rewrite <- (Forall2_filter_fmap generated_by (fun cl : cell => cl.1.1.1 = p)
                  (fun r => Plant_Extract r = p) (fun _ => tt) (fun _ => tt) _ _ Hall).
    + rewrite length_fmap. now rewrite (loop_cells_plant_count _ _ _ p Np Hp).
    + intros cl r Hgen. destruct (Hfields cl r Hgen) as (-> & _). tauto.
  - apply Forall_forall. intros b Hb.
    rewrite <- (length_fmap (fun _ => tt)).
    rewrite <- (Forall2_filter_fmap generated_by (fun cl : cell => cl.1.1.2 = b)
                  (fun r => Bacteria r = b) (fun _ => tt) (fun _ => tt) _ _ Hall).
    + rewrite length_fmap. now rewrite (loop_cells_bacterium_count _ _ _ b Nb Hb).
    + intros cl r Hgen. destruct (Hfields cl r Hgen) as (_ & -> & _). tauto.
  - apply Forall_forall. intros c Hc.
    rewrite <- (length_fmap (fun _ => tt)).
    rewrite <- (Forall2_filter_fmap generated_by (fun cl : cell => cl.1.2 = c)
                  (fun r => Concentration_mg_mL r = c) (fun _ => tt) (fun _ => tt) _ _ Hall).
    + rewrite length_fmap. now rewrite (loop_cells_concentration_count _ _ _ c Nc Hc).
    + intros cl r Hgen. destruct (Hfields cl r Hgen) as (_ & _ & -> & _). tauto.
Qed.

(** * Properties of the scripts around the generator *)

(** ** The generator run as a script *)

(** X6.  Run as a script, the generator prints five lines: the two of the
    function, the heading of the preview, the rendering of the first ten
    records and the shape, which is always (1200, 7).  The ten records
    previewed are those of garlic on E. coli: the three replicates at 10,
    25 and 50 mg/mL and the first at 100 mg/mL. *)
Theorem script_output `{Ambient} (frame_to_string : list row -> string)
    (w : world) :
  exists df w',
    data_generator_main frame_to_string w = Ok (tt, w') /\
    files w' = <["antibacterial_data.csv" := df]> (files w) /\
    stdout w' =
      (stdout w ++
       [ "Generated 1200 data points";
         "Data saved to 'antibacterial_data.csv'";
         (newline ++ "Data Preview:")%string;
         frame_to_string (take 10 df);
         (newline ++ "Data shape: (1200, 7)")%string ])%list /\
    row_cell <$> take 10 df =
      (fun '(c, k) => ("Garlic (Allium sativum)", "Escherichia coli", c, k)) <$>
      [ (10, 1); (10, 2); (10, 3); (25, 1); (25, 2); (25, 3);
        (50, 1); (50, 2); (50, 3); (100, 1) ].
Proof.
  destruct (generate_spec w) as (df & w1 & Hrun & Hall & Hfiles & Hout).
  assert (length df = 1200%nat) as Hlen.
  { rewrite <- (Forall2_length _ _ _ Hall), length_loop_cells. reflexivity. }
  pose proof (generated_cells _ _ Hall) as Hcells. rewrite catalog_cells in Hcells.
  eexists df, _. split; [|split; [|split]].
  - unfold data_generator_main, bind. rewrite Hrun. unfold print. reflexivity.
  - cbn [files]. exact Hfiles.
  - cbn [stdout]. rewrite Hout.
    assert (shape df = (1200%nat, 7%nat)) as ->.
    { unfold shape. rewrite Hlen. destruct df; [discriminate|reflexivity]. }
    rewrite <- !app_assoc. reflexivity.
  - rewrite fmap_take, Hcells. vm_compute. reflexivity.
Qed.

(** ** Loading the file the generator writes *)

(** X7.  Whatever the world the generator starts in, a script that then
    calls [load_data] does not take the file-not-found branch: it gets
    what the parser makes of the table the generator returned (a frame,
    or the parser's exception), prints nothing and changes nothing. *)
Theorem load_after_generate `{Ambient} (frame : Type)
    (read_csv : list row -> frame + py_error) (w : world) :
  exists df w',
    generate_antibacterial_data w = Ok (df, w') /\
    load_data frame read_csv w' =
      match read_csv df with
      | inl loaded => (inl (Some loaded), w')
      | inr e => (inr e, w')
      end.
Proof.
  destruct (generate_spec w) as (df & w' & Hrun & _ & Hfiles & _).
  exists df, w'. split; [assumption|].
  unfold load_data, py_bind, try_read_csv.
  rewrite Hfiles, lookup_insert_eq.
  destruct (read_csv df) as [loaded|e]; reflexivity.
Qed.

(** X8.  When the file is missing, the [main] of the statistics, the
    visualisation and the report script prints the one line that says so
    and returns normally, without running any of its analysis and without
    touching a file or a source. *)
Theorem missing_file_quiet_return `{Ambient} (frame : Type)
    (read_csv : list row -> frame + py_error)
    (rest : frame -> Py world unit) (w : world) :
  files w !! "antibacterial_data.csv" = None ->
  guarded_main frame read_csv rest w =
  (inl tt,
   {| np_rng := np_rng w; py_rng := py_rng w; clock := clock w; files := files w;
      stdout := (stdout w ++
                 ["Data file not found. Please run data_generator.py first."])%list |}).
Proof.
  intros Hmissing.
  unfold guarded_main, load_data, py_bind, try_read_csv. now rewrite Hmissing.
Qed.

(** X8 in the world with no file at all, whatever the analysis is. *)
Lemma missing_file_quiet_return_witness :
  files (stub_world 0 1 0) !! "antibacterial_data.csv" = None /\
  guarded_main unit (fun _ => inl tt) (fun _ => py_raise ZeroDivisionError)
    (stub_world 0 1 0) =
  (inl tt,
   {| np_rng := np_rng (stub_world 0 1 0); py_rng := py_rng (stub_world 0 1 0);
      clock := clock (stub_world 0 1 0); files := files (stub_world 0 1 0);
      stdout := (stdout (stub_world 0 1 0) ++
                 ["Data file not found. Please run data_generator.py first."])%list |}).
Proof.
  assert (files (stub_world 0 1 0) !! "antibacterial_data.csv" = None) as Hmissing
    by reflexivity.
  split; [exact Hmissing|].
  exact (missing_file_quiet_return unit (fun _ => inl tt)
           (fun _ => py_raise ZeroDivisionError) (stub_world 0 1 0) Hmissing).
Defined.

(** X9.  When the file is missing, the [main] of the machine-learning
    script does not return: [load_and_prepare_data] hands back two values
    where [main] unpacks four, so after the two heading lines and the
    file-not-found line it raises [ValueError], before its [if X is None]
    guard is reached. *)
Theorem missing_file_ml_raises `{Ambient} (frame : Type)
    (read_csv : list row -> frame + py_error) (prepared : Type)
    (prepare : frame -> (prepared * prepared * prepared * prepared) + py_error)
    (rest : py_value prepared -> py_value prepared -> py_value prepared ->
            py_value prepared -> Py world unit)
    (w : world) :
  files w !! "antibacterial_data.csv" = None ->
  ml_main frame read_csv prepared prepare rest w =
  (inr (ValueError "not enough values to unpack (expected 4, got 2)"),
   {| np_rng := np_rng w; py_rng := py_rng w; clock := clock w; files := files w;
      stdout := (stdout w ++
                 [ "MACHINE LEARNING ANALYSIS";
                   "==================================================";
                   "Data file not found. Please run data_generator.py first." ])%list |}).
Proof.
  intros Hmissing.
  unfold ml_main, load_and_prepare_data, py_bind, try_read_csv, w_print, py_ret.
  cbn [files stdout np_rng py_rng clock]. rewrite Hmissing.
  cbn [files stdout np_rng py_rng clock unpack4 length Nat.ltb Nat.leb py_raise].
  rewrite <- !app_assoc. reflexivity.
Qed.

(** X9 in the world with no file at all. *)
Lemma missing_file_ml_raises_witness :
  files (stub_world 0 1 0) !! "antibacterial_data.csv" = None /\
  ml_main unit (fun _ => inl tt) unit (fun _ => inl (tt, tt, tt, tt))
    (fun _ _ _ _ => py_ret tt) (stub_world 0 1 0) =
  (inr (ValueError "not enough values to unpack (expected 4, got 2)"),
   {| np_rng := np_rng (stub_world 0 1 0); py_rng := py_rng (stub_world 0 1 0);
      clock := clock (stub_world 0 1 0); files := files (stub_world 0 1 0);
      stdout := (stdout (stub_world 0 1 0) ++
                 [ "MACHINE LEARNING ANALYSIS";
                   "==================================================";
                   "Data file not found. Please run data_generator.py first." ])%list |}).
Proof.
  assert (files (stub_world 0 1 0) !! "antibacterial_data.csv" = None) as Hmissing
    by reflexivity.
  split; [exact Hmissing|].
  exact (missing_file_ml_raises unit (fun _ => inl tt) unit
           (fun _ => inl (tt, tt, tt, tt)) (fun _ _ _ _ => py_ret tt)
           (stub_world 0 1 0) Hmissing).
Defined.

(** ** The pipeline driver *)

Lemma dict_set_fresh {V} key (value : V) d :
  key ∉ d.*1 -> dict_set key value d = (d ++ [(key, value)])%list.
Proof.
  induction d as [|[k v] d IH]; intros Hfresh; [reflexivity|].
  cbn [dict_set]. rewrite fmap_cons in Hfresh. apply not_elem_of_cons in Hfresh as [Hne Hfresh].
  destruct (decide (k = key)) as [->|_]; [now destruct Hne|].
  now rewrite IH.
Qed.

Section DriverFacts.
Context `{Processes}.

Lemma py_for_print (lines : list string) (sh : shell) :
  py_for lines sh_print sh =
  (inl tt, {| procs := procs sh; console := (console sh ++ lines)%list |}).
Proof.
  revert sh. induction lines as [|line lines IH]; intros sh.
  - cbn. rewrite app_nil_r. now destruct sh.
  - cbn [py_for]. unfold py_bind, sh_print at 1. rewrite IH. cbn [procs console].
    now rewrite <- app_assoc.
Qed.

Lemma py_for_print_fmap {X} (f : X -> string) (xs : list X) (sh : shell) :
  py_for xs (fun x => sh_print (f x)) sh =
  (inl tt, {| procs := procs sh; console := (console sh ++ (f <$> xs))%list |}).
Proof.
  revert sh. induction xs as [|x xs IH]; intros sh.
  - cbn. rewrite app_nil_r. now destruct sh.
  - cbn [py_for]. unfold py_bind, sh_print at 1. rewrite IH. cbn [procs console].
    now rewrite fmap_cons, <- app_assoc.
Qed.

(** [run_script] returns whether the run completed with return code 0,
    after printing four lines. *)
Lemma run_script_spec script description (sh : shell) :
  exists lines,
    run_script script description sh =
    (inl (succeeded (subprocess_run script (procs sh)).1),
     {| procs := (subprocess_run script (procs sh)).2;
        console := (console sh ++ lines)%list |}).
Proof.
  unfold run_script, py_bind, sh_print, sh_run. cbn [procs console].
  destruct (subprocess_run script (procs sh)) as [[rc|msg] p]; cbn [fst snd succeeded].
  - destruct (decide (rc = 0)) as [Hrc|Hrc].
    + rewrite (bool_decide_eq_true_2 _ Hrc). unfold py_ret. cbn [procs console].
      eexists. rewrite <- !app_assoc. reflexivity.
    + rewrite (bool_decide_eq_false_2 _ Hrc). unfold py_ret. cbn [procs console].
      eexists. rewrite <- !app_assoc. reflexivity.
  - unfold py_ret. cbn [procs console].
    eexists. rewrite <- !app_assoc. reflexivity.
Qed.

Lemma length_run_results scripts (p : proc_state) :
  length (run_results scripts p).1 = length scripts.
Proof.
  revert p. induction scripts as [|script scripts IH]; intros p; [reflexivity|].
  cbn [run_results]. destruct (subprocess_run script p) as [r p1].
  specialize (IH p1). destruct (run_results scripts p1) as [rs p2].
  cbn in *. now rewrite IH.
Qed.

(** The loop runs every step, whatever fails, and records under each
    description whether its script succeeded. *)
Lemma run_steps_spec steps :
  forall results (sh : shell),
    NoDup (steps.*2) ->
    (forall d, d ∈ steps.*2 -> d ∉ results.*1) ->
    exists log,
      run_steps steps results sh =
      (inl (results ++ zip (steps.*2)
                         (succeeded <$> (run_results (steps.*1) (procs sh)).1))%list,
       {| procs := (run_results (steps.*1) (procs sh)).2;
          console := (console sh ++ log)%list |}).
Proof.
  induction steps as [|[script description] steps IH]; intros results sh Hnd Hfresh.
  - exists []. cbn. rewrite !app_nil_r. now destruct sh.
  - rewrite fmap_cons in Hnd. apply NoDup_cons in Hnd as [Hnotin Hnd].
    cbn [run_steps]. unfold py_bind at 1.
    destruct (run_script_spec script description sh) as [lines ->].
    rewrite dict_set_fresh by (apply Hfresh; rewrite fmap_cons; apply list_elem_of_here).
    set (r := (subprocess_run script (procs sh)).1).
    set (p1 := (subprocess_run script (procs sh)).2).
    set (warning := if succeeded r then _ else _).
    assert (exists more,
              warning {| procs := p1; console := (console sh ++ lines)%list |} =
              (inl tt, {| procs := p1; console := (console sh ++ lines ++ more)%list |}))
      as [more Hwarning].
    { subst warning. destruct (succeeded r).
      - exists []. unfold py_ret. now rewrite app_nil_r.
      - eexists [_]. unfold sh_print. cbn [procs console].
        now rewrite <- app_assoc. }
    unfold py_bind. rewrite Hwarning.
    destruct (IH (results ++ [(description, succeeded r)])%list
                {| procs := p1; console := (console sh ++ lines ++ more)%list |} Hnd)
      as [log ->].
    { intros d Hd. rewrite fmap_app, not_elem_of_app. split.
      - apply Hfresh. rewrite fmap_cons. now apply list_elem_of_further.
      - cbn. intros Hin. apply list_elem_of_singleton in Hin as ->. contradiction. }
    exists (lines ++ more ++ log)%list. cbn [procs console].
    rewrite !fmap_cons. cbn [fst snd run_results].
    fold r p1. destruct (subprocess_run script (procs sh)) as [r' p1'] eqn:Hrun.
    subst r p1. cbn [fst snd].
    destruct (run_results steps.*1 p1') as [rs p2]. cbn [fst snd fmap zip].
    rewrite fmap_cons. cbn [zip zip_with]. rewrite <- !app_assoc. reflexivity.
Qed.

Lemma count_true_zip (descs : list string) (bs : list bool) :
  length descs = length bs ->
  count_true (zip descs bs) = length (filter (fun b => b = true) bs).
Proof.
  unfold count_true. revert bs.
  induction descs as [|d descs IH]; intros [|b bs] Hlen; try discriminate;
    [reflexivity|].
  cbn [zip zip_with]. rewrite !filter_cons. cbn [snd].
  injection Hlen as Hlen. specialize (IH bs Hlen).
  destruct (decide (b = true)); cbn [length]; now rewrite IH.
Qed.

End DriverFacts.

Lemma string_app_assoc (a b c : string) :
  ((a ++ b) ++ c = a ++ (b ++ c))%string.
Proof.
  induction a as [|ch a IH]; [reflexivity|].
  change (String ch ((a ++ b) ++ c) = String ch (a ++ (b ++ c)))%string.
  now f_equal.
Qed.

Lemma percent_of_five s :
  (s <= 5)%nat -> percent_1f s 5 = (string_of_nat (20 * s) ++ ".0")%string.
Proof.
  intros Hs.
  destruct s as [|[|[|[|[|[|s]]]]]]; try (vm_compute; reflexivity). lia.
Qed.

Lemma filter_succeeded_fmap `{Processes} (rs : list run_result) :
  length (filter (fun b => b = true) (succeeded <$> rs)) =
  length (filter (fun r => succeeded r = true) rs).
Proof.
  induction rs as [|r rs IH]; [reflexivity|].
  rewrite fmap_cons, !filter_cons.
  destruct (decide (succeeded r = true)); cbn [length]; now rewrite IH.
Qed.

Lemma print_statuses_spec `{Processes} results (sh : shell) :
  print_statuses results sh =
  (inl tt,
   {| procs := procs sh;
      console := (console sh ++
                  ((fun kv : string * bool =>
                      ljust30 kv.1 ++ " " ++
                      (if kv.2 then "✅ SUCCESS" else "❌ FAILED"))%string
                   <$> results))%list |}).
Proof.
  unfold print_statuses. revert sh.
  induction results as [|[step success] results IH]; intros sh.
  - cbn. rewrite app_nil_r. now destruct sh.
  - cbn [py_for]. unfold py_bind, sh_print at 1. rewrite IH. cbn [procs console fst snd].
    now rewrite fmap_cons, <- app_assoc.
Qed.

(** What [main] does, all at once. *)
Lemma pipeline_main_spec `{Processes} (sh : shell) :
  let rs := (run_results (analysis_steps.*1) (procs sh)).1 in
  let successes := length (filter (fun r => succeeded r = true) rs) in
  exists log,
    pipeline_main sh =
    (inl tt,
     {| procs := (run_results (analysis_steps.*1) (procs sh)).2;
        console :=
          (console sh ++ log ++
           zip_with (fun (step : string * string) r =>
                       ljust30 step.2 ++ " " ++
                       (if succeeded r then "✅ SUCCESS" else "❌ FAILED"))%string
                    analysis_steps rs ++
           [ (newline ++ "Overall Success Rate: " ++ string_of_nat successes
              ++ "/5 (" ++ string_of_nat (20 * successes) ++ ".0%)")%string ] ++
           (if decide (successes = 5%nat) then
              [ (newline ++ "🎉 Complete analysis pipeline executed successfully!")%string;
                (newline ++ "Generated files:")%string;
                "📊 Data: antibacterial_data.csv";
                "📈 Visualizations: *.png files";
                "📋 HTML Report: antibacterial_analysis_report.html";
                "📄 Summary: analysis_summary.txt";
                (newline ++ "💡 Open the HTML report in your browser for the complete analysis!")%string ]
            else
              [ (newline ++ "⚠️  Pipeline completed with "
                 ++ string_of_nat (5 - successes) ++ " failed step(s).")%string;
                "Check the error messages above for troubleshooting." ]))%list |}).
Proof.
  intros rs successes.
  pose proof (length_run_results (analysis_steps.*1) (procs sh)) as Hlen.
  fold rs in Hlen. change (length analysis_steps.*1) with 5%nat in Hlen.
  assert (rs = (run_results (analysis_steps.*1) (procs sh)).1) as Hrs by reflexivity.
  clearbody rs.
  assert (successes = length (filter (fun r => succeeded r = true) rs)) as Hsuccesses
    by reflexivity.
  clearbody successes.
  assert (successes <= 5)%nat as Hle.
  { rewrite Hsuccesses, <- Hlen. apply length_filter. }
  unfold pipeline_main. unfold py_bind at 1. rewrite py_for_print.
  set (sh1 := {| procs := procs sh; console := _ |}).
  destruct (run_steps_spec analysis_steps [] sh1) as [log Hsteps].
  { refine (bool_decide_unpack _ _). vm_compute. exact I. }
  { intros d _. apply not_elem_of_nil. }
  unfold py_bind at 1. rewrite Hsteps. cbn [app procs console sh1].
  rewrite <- Hrs.
  set (results := zip analysis_steps.*2 (succeeded <$> rs)).
  unfold py_bind at 1. rewrite py_for_print. cbn [procs console].
  unfold py_bind at 1. rewrite print_statuses_spec. cbn [procs console].
  assert (length results = 5%nat) as Hresults.
  { subst results. rewrite length_zip_with, !length_fmap, Hlen. reflexivity. }
  assert (count_true results = successes) as Hcount.
  { subst results. rewrite Hsuccesses, count_true_zip.
    - apply filter_succeeded_fmap.
    - now rewrite !length_fmap, Hlen. }
  assert (((fun kv : string * bool =>
              ljust30 kv.1 ++ " " ++ (if kv.2 then "✅ SUCCESS" else "❌ FAILED"))%string
           <$> results) =
          zip_with (fun (step : string * string) r =>
                      ljust30 step.2 ++ " " ++
                      (if succeeded r then "✅ SUCCESS" else "❌ FAILED"))%string
                   analysis_steps rs) as Hstatuses.
  { subst results. clear -Hlen.
    destruct rs as [|r1 [|r2 [|r3 [|r4 [|r5 [|r6 rs]]]]]]; try discriminate.
    reflexivity. }
  unfold print_outcome. rewrite Hresults, Hcount.
  destruct (decide (5%nat = 0%nat)) as [?|_]; [discriminate|].
  unfold py_bind, sh_print at 1. cbn [procs console].
  rewrite (percent_of_five successes Hle), Hstatuses.
  exists (([ "ANTIBACTERIAL ACTIVITY ANALYSIS - COMPLETE PIPELINE";
             string_repeat "=" 60;
             "This script will run the complete analysis pipeline:";
             "1. Generate synthetic data";
             "2. Perform statistical analysis";
             "3. Create visualizations";
             "4. Run machine learning analysis";
             "5. Generate comprehensive report";
             "" ] ++ log) ++
          [ (newline ++ string_repeat "=" 60)%string;
            "ANALYSIS PIPELINE SUMMARY";
            string_repeat "=" 60 ])%list.
  rewrite (string_app_assoc (string_of_nat (20 * successes)) ".0" "%)").
  destruct (decide (successes = 5%nat)) as [Hall|Hsome];
    rewrite py_for_print; cbn [procs console];
    rewrite <- !app_assoc; reflexivity.
Qed.


(** X11.  The summary the driver prints reflects the return codes: a
    step counts as a success exactly when its script completed with
    return code 0 (an exception while starting it is a failure).  The
    output ends with one status line per step in order, the success rate
    [s/5] with its percentage [20 * s], and then the seven lines of the
    success message when all five succeeded, or else the count [5 - s]
    of failed steps and the troubleshooting hint. *)
Theorem pipeline_report `{Processes} (sh : shell) :
  let rs := (run_results (analysis_steps.*1) (procs sh)).1 in
  let s := length (filter (fun r => succeeded r = true) rs) in
  length rs = 5%nat /\
  exists sh' log,
    pipeline_main sh = (inl tt, sh') /\
    console sh' =
      (console sh ++ log ++
       zip_with (fun (step : string * string) r =>
                   ljust30 step.2 ++ " " ++
                   (if succeeded r then "✅ SUCCESS" else "❌ FAILED"))%string
                analysis_steps rs ++
       [ (newline ++ "Overall Success Rate: " ++ string_of_nat s
          ++ "/5 (" ++ string_of_nat (20 * s) ++ ".0%)")%string ] ++
       (if decide (s = 5%nat) then
          [ (newline ++ "🎉 Complete analysis pipeline executed successfully!")%string;
            (newline ++ "Generated files:")%string;
            "📊 Data: antibacterial_data.csv";
            "📈 Visualizations: *.png files";
            "📋 HTML Report: antibacterial_analysis_report.html";
            "📄 Summary: analysis_summary.txt";
            (newline ++ "💡 Open the HTML report in your browser for the complete analysis!")%string ]
        else
          [ (newline ++ "⚠️  Pipeline completed with "
             ++ string_of_nat (5 - s) ++ " failed step(s).")%string;
            "Check the error messages above for troubleshooting." ]))%list.
Proof.
  intros rs s. split; [apply length_run_results|].
  destruct (pipeline_main_spec sh) as [log Hmain].
  eexists _, log. split; [exact Hmain|]. reflexivity.
Qed.

(** ** The labels of the extracts *)

Lemma before_no_sep sep s : sep ∉ before sep s.
Proof.
  induction s as [|c s IH]; cbn [before]; [apply not_elem_of_nil|].
  destruct (decide (c = sep)) as [->|Hne]; [apply not_elem_of_nil|].
  apply not_elem_of_cons. split; [congruence|assumption].
Qed.

Lemma before_id sep s : sep ∉ s -> before sep s = s.
Proof.
  induction s as [|c s IH]; intros Hs; [reflexivity|].
  apply not_elem_of_cons in Hs as [Hne Hs]. cbn [before].
  destruct (decide (c = sep)) as [->|_]; [now destruct Hne|]. now rewrite IH.
Qed.

Lemma lstrip_head s c : head (lstrip s) = Some c -> py_isspace c = false.
Proof.
  induction s as [|d s IH]; [discriminate|]. cbn [lstrip].
  destruct (py_isspace d) eqn:Hd; [assumption|]. intros [= <-]. exact Hd.
Qed.

Lemma lstrip_id s : (forall c, head s = Some c -> py_isspace c = false) -> lstrip s = s.
Proof.
  destruct s as [|d s]; [reflexivity|]. intros Hs. cbn [lstrip].
  now rewrite (Hs d eq_refl).
Qed.

Lemma lstrip_elem_of s c : c ∈ lstrip s -> c ∈ s.
Proof.
  induction s as [|d s IH]; [auto|]. cbn [lstrip].
  destruct (py_isspace d); [|auto]. intros Hc. apply list_elem_of_further. auto.
Qed.

Lemma lstrip_last s c : last (lstrip s) = Some c -> last s = Some c.
Proof.
  induction s as [|d s IH]; [auto|]. cbn [lstrip].
  destruct (py_isspace d); [|auto]. intros Hc. specialize (IH Hc).
  destruct s; [discriminate|exact IH].
Qed.

Lemma strip_head s c : head (strip s) = Some c -> py_isspace c = false.
Proof.
  unfold strip. rewrite head_reverse. intros Hc.
  apply lstrip_last in Hc. rewrite last_reverse in Hc. now apply lstrip_head in Hc.
Qed.

Lemma strip_last s c : last (strip s) = Some c -> py_isspace c = false.
Proof. unfold strip. rewrite last_reverse. apply lstrip_head. Qed.

Lemma strip_elem_of s c : c ∈ strip s -> c ∈ s.
Proof.
  unfold strip. rewrite elem_of_reverse. intros Hc.
  apply lstrip_elem_of in Hc. rewrite elem_of_reverse in Hc.
  now apply lstrip_elem_of.
Qed.

Lemma strip_fixed s :
  (forall c, head s = Some c -> py_isspace c = false) ->
  (forall c, last s = Some c -> py_isspace c = false) ->
  strip s = s.
Proof.
  intros Hhead Hlast. unfold strip. rewrite (lstrip_id s Hhead).
  rewrite lstrip_id; [apply reverse_involutive|].
  intros c. rewrite head_reverse. apply Hlast.
Qed.

(** X12.  The label [name.split('(')[0].strip()] never contains an
    opening parenthesis and neither starts nor ends with white space;
    taking the label of a label changes nothing.  The ten extract names
    get the ten labels below, no two of them equal. *)
Theorem extract_labels :
  (forall name,
     let label := list_ascii_of_string (short_label name) in
     (left_paren ∉ label) /\
     (forall c, head label = Some c -> py_isspace c = false) /\
     (forall c, last label = Some c -> py_isspace c = false) /\
     short_label (short_label name) = short_label name) /\
  short_label <$> plant_extracts =
    [ "Garlic"; "Tea Tree"; "Oregano"; "Thyme"; "Eucalyptus"; "Neem";
      "Turmeric"; "Ginger"; "Cinnamon"; "Clove" ] /\
  NoDup (short_label <$> plant_extracts).
Proof.
  split; [|split].
  - intros name label. subst label. unfold short_label.
    rewrite !list_ascii_of_string_of_list_ascii.
    set (s := before left_paren (list_ascii_of_string name)).
    assert (left_paren ∉ strip s) as Hparen.
    { intros Hin. apply strip_elem_of in Hin. now apply before_no_sep in Hin. }
    split; [exact Hparen|]. split; [apply strip_head|]. split; [apply strip_last|].
    rewrite (before_id _ _ Hparen).
    now rewrite (strip_fixed (strip s) (strip_head s) (strip_last s)).
  - vm_compute. reflexivity.
  - refine (bool_decide_unpack _ _). vm_compute. exact I.
Qed.
